(** * Business simulation engine: a shallow embedding of
    [services/simulation.js], [services/advancedSimulationHelpers.js] and
    [services/advancedSimulation.js].

    JavaScript numbers are IEEE 754 binary64 values; they are embedded as the
    primitive [float] type, whose [+], [-], [*], [/], [sqrt], [abs] and
    comparisons are the IEEE operations JavaScript uses (round to nearest,
    ties to even; one NaN).  [Math.pow] is the one numeric builtin the
    language leaves implementation-approximated: it is a parameter of the
    development, and a concrete instance ([pow_int]) is used wherever an
    example has to be evaluated. *)

From Stdlib Require Import Bool List ZArith Lia String.
From Stdlib Require Import Uint63 Floats.
Import ListNotations.

Set Warnings "-inexact-float".

Local Open Scope float_scope.

(** ** JavaScript values that reach the engine *)

(** A lever of the [overrides] object, or a field of a debt or investment
    entry: absent ([undefined]), [null], or a number. *)
Inductive JsVal : Type :=
| JUndefined
| JNull
| JNum (x : float).

(** [Number(v)]. *)
Definition Number (v : JsVal) : float :=
  match v with
  | JUndefined => nan
  | JNull => 0
  | JNum x => x
  end.

(** Truthiness of a number: everything but [+0], [-0] and [NaN]. *)
Definition truthy_num (x : float) : bool :=
  negb ((x =? 0) || is_nan x).

(** [ToBoolean(v)]. *)
Definition truthy (v : JsVal) : bool :=
  match v with
  | JUndefined | JNull => false
  | JNum x => truthy_num x
  end.

(** [a || b]. *)
Definition js_or (a b : JsVal) : JsVal :=
  if truthy a then a else b.

(** [a ?? b]. *)
Definition js_coalesce (a b : JsVal) : JsVal :=
  match a with
  | JUndefined | JNull => b
  | JNum _ => a
  end.

(** [a === t] for a number [t]. *)
Definition strict_eq_num (a : JsVal) (t : float) : bool :=
  match a with
  | JNum x => x =? t
  | _ => false
  end.

(** [!x] for a fetched record, which is an object or [null]. *)
Definition absent {A : Type} (x : option A) : bool :=
  match x with
  | Some _ => false
  | None => true
  end.

Infix "|||" := js_or (at level 50, left associativity).
Infix "???" := js_coalesce (at level 50, left associativity).

(** A loop counter or an array index seen as a number (exactly, below
    [2^53], where the counter of the source is exact too). *)
Definition num_of_nat (n : nat) : float :=
  of_uint63 (Uint63.of_Z (Z.of_nat n)).

(** [Math.max(a, b)]: NaN if either is NaN, and [+0] is larger than [-0]. *)
Definition Math_max (a b : float) : float :=
  if is_nan a || is_nan b then nan
  else if a <? b then b
  else if b <? a then a
  else if get_sign a then b else a.

(** [Math.min(a, b)]: NaN if either is NaN, and [-0] is smaller than [+0]. *)
Definition Math_min (a b : float) : float :=
  if is_nan a || is_nan b then nan
  else if a <? b then a
  else if b <? a then b
  else if get_sign a then a else b.

(** [Math.abs], [Math.sqrt]. *)
Definition Math_abs (x : float) : float := abs x.
Definition Math_sqrt (x : float) : float := sqrt x.

(** [arr.reduce((acc, x, i) => f(acc, x, i), init)]. *)
Fixpoint reduce_from {A B : Type} (f : B -> A -> nat -> B)
         (i : nat) (l : list A) (acc : B) : B :=
  match l with
  | [] => acc
  | x :: l' => reduce_from f (S i) l' (f acc x i)
  end.

Definition reduce {A B : Type} (f : B -> A -> nat -> B) (l : list A) (init : B) : B :=
  reduce_from f 0 l init.

(** ** Data model *)

(** What an [async] function settles to: a value, or a thrown [Error]. *)
Inductive Result (A : Type) : Type :=
| Ok (a : A)
| Throw (message : string).
Arguments Ok {A} a.
Arguments Throw {A} message.

(** A debt entry as the caller gives it: [principal] or [amount],
    [annualRate] or [rate], [periodsToRepay] or [term], [startPeriod]. *)
Record DebtInput : Type := mkDebtInput {
  di_principal : JsVal;
  di_amount : JsVal;
  di_annualRate : JsVal;
  di_rate : JsVal;
  di_periodsToRepay : JsVal;
  di_term : JsVal;
  di_startPeriod : JsVal
}.

(** Rows of the [Business] and [Strategy] tables.  The numeric columns are
    nullable floats; [initialInvestment], [cashBalance] and [debts] are read
    by the advanced engine when the snapshot carries them. *)
Record Business : Type := mkBusiness {
  b_revenue : JsVal;
  b_cost : JsVal;
  b_initialInvestment : JsVal;
  b_cashBalance : JsVal;
  b_debts : option (list DebtInput)
}.

Record Strategy : Type := mkStrategy {
  s_growthRate : JsVal;
  s_costRate : JsVal
}.

Record SimpleRecord : Type := mkSimpleRecord {
  sr_period : nat;
  sr_revenue : float;
  sr_cost : float;
  sr_profit : float
}.

(** What [computeRiskIndex] returns: the bare number of its early return, or
    the record [{std, mean, riskIndex}]. *)
Inductive RiskResult : Type :=
| RiskNumber (x : float)
| RiskRecord (std mean riskIndex : float).

(** Property reads [risk.riskIndex], [risk.std], [risk.mean]: a number has
    none of them. *)
Definition risk_riskIndex (r : RiskResult) : JsVal :=
  match r with RiskNumber _ => JUndefined | RiskRecord _ _ ri => JNum ri end.
Definition risk_std (r : RiskResult) : JsVal :=
  match r with RiskNumber _ => JUndefined | RiskRecord s _ _ => JNum s end.
Definition risk_mean (r : RiskResult) : JsVal :=
  match r with RiskNumber _ => JUndefined | RiskRecord _ m _ => JNum m end.

Record Investment : Type := mkInvestment {
  inv_period : JsVal;
  inv_amount : JsVal
}.

(** The [overrides] object: a sparse set of levers. *)
Record Overrides : Type := mkOverrides {
  o_revenue : JsVal;
  o_cost : JsVal;
  o_initialInvestment : JsVal;
  o_cashBalance : JsVal;
  o_growthRate : JsVal;
  o_costRate : JsVal;
  o_growthRateDelta : JsVal;
  o_costRateDelta : JsVal;
  o_debts : option (list DebtInput);
  o_oneTimeInvestments : option (list Investment);
  o_marketingPerPeriod : JsVal;
  o_priceDeltaPercent : JsVal;
  o_marketingMultiplier : JsVal
}.

(** [overrides = {}]. *)
Definition no_overrides : Overrides :=
  mkOverrides JUndefined JUndefined JUndefined JUndefined JUndefined JUndefined
              JUndefined JUndefined None None JUndefined JUndefined JUndefined.

(** A working debt of the engine: the object built by the [map] over the
    debt entries, whose [remaining] the period loop updates. *)
Record Debt : Type := mkDebt {
  d_principal : float;
  d_annualRate : float;
  d_periodsToRepay : float;
  d_startPeriod : float;
  d_remaining : float
}.

Definition set_remaining (d : Debt) (r : float) : Debt :=
  mkDebt (d_principal d) (d_annualRate d) (d_periodsToRepay d) (d_startPeriod d) r.

Record DebtSnapshot : Type := mkDebtSnapshot {
  ds_remaining : float;
  ds_principal : float
}.

Record PeriodRecord : Type := mkPeriodRecord {
  pr_period : nat;
  pr_revenue : float;
  pr_cost : float;
  pr_profit : float;
  pr_investment : float;
  pr_debtPayment : float;
  pr_netCashFlow : float;
  pr_cashBalance : float;
  pr_cumulativeProfit : float;
  pr_debts : list DebtSnapshot
}.

Record Meta : Type := mkMeta {
  m_periods : nat;
  m_scenario : string;
  m_overrides : Overrides;
  m_initialInvestment : float;
  m_startingRevenue : float;
  m_startingCost : float
}.

Record Kpis : Type := mkKpis {
  k_totalNetProfit : float;
  k_ROI : option float;
  k_IRR : option float;
  k_breakEvenPeriod : option nat;
  k_riskIndex : JsVal;
  k_profitStdDev : JsVal;
  k_profitMean : JsVal;
  k_cashFlows : list float
}.

Record SimulationResult : Type := mkSimulationResult {
  meta : Meta;
  results : list PeriodRecord;
  kpis : Kpis
}.

(** An entry of [scenarioDefaults]. *)
Record ScenarioProfile : Type := mkScenarioProfile {
  growthRateBoost : JsVal;
  costVolatility : JsVal
}.

Definition scenario_generic : ScenarioProfile :=
  mkScenarioProfile (JNum 0.0) (JNum 0.1).

(** Names every object inherits: [scenarioDefaults[name]] is then a truthy
    value with neither [growthRateBoost] nor [costVolatility]. *)
Definition inherited_names : list string :=
  ["constructor"; "__proto__"; "hasOwnProperty"; "isPrototypeOf";
   "propertyIsEnumerable"; "toLocaleString"; "toString"; "valueOf";
   "__defineGetter__"; "__defineSetter__"; "__lookupGetter__";
   "__lookupSetter__"]%string.

(** [scenarioDefaults[scenario]]. *)
Definition scenarioDefaults (scenario : string) : option ScenarioProfile :=
  if String.eqb scenario "startup" then Some (mkScenarioProfile (JNum 0.05) (JNum 0.15))
  else if String.eqb scenario "manufacturing" then Some (mkScenarioProfile (JNum 0.02) (JNum 0.08))
  else if String.eqb scenario "retail" then Some (mkScenarioProfile (JNum 0.03) (JNum 0.10))
  else if String.eqb scenario "generic" then Some scenario_generic
  else if existsb (String.eqb scenario) inherited_names
       then Some (mkScenarioProfile JUndefined JUndefined)
  else None.

(** [business?.field]. *)
Definition opt_field (business : option Business) (field : Business -> JsVal) : JsVal :=
  match business with
  | Some b => field b
  | None => JUndefined
  end.

(** The working variables of the period loop. *)
Record LoopState : Type := mkLoopState {
  st_revenue : float;
  st_cost : float;
  st_cash : float;
  st_cumulativeProfit : float;
  st_debts : list Debt;
  st_results : list PeriodRecord;
  st_cashFlows : list float
}.

(** A concrete [Math.pow] for whole-number exponents, by repeated
    multiplication (and a reciprocal for negative exponents); any other
    exponent gives NaN.  It agrees with the language wherever the
    mathematical power is a representable number reached without rounding,
    which is all the examples below rely on. *)
Fixpoint pow_nat (b : float) (n : nat) : float :=
  match n with
  | O => 1
  | S k => b * pow_nat b k
  end.

Fixpoint find_whole (fuel : nat) (k : nat) (e : float) : option nat :=
  match fuel with
  | O => None
  | S fuel' => if num_of_nat k =? e then Some k else find_whole fuel' (S k) e
  end.

Definition pow_int (b e : float) : float :=
  match find_whole 64 0 (abs e) with
  | Some k => if e <? 0 then 1 / pow_nat b k else pow_nat b k
  | None => nan
  end.

Section Engine.

(** [Math.pow]. *)
Variable Math_pow : float -> float -> float.

(** ** advancedSimulationHelpers.js / advancedSimulation.js: computeIRR *)

(** [npv(rate)] of [computeIRR]. *)
Definition npv (cashFlows : list float) (rate : float) : float :=
  reduce (fun acc cf t => acc + cf / Math_pow (1 + rate) (num_of_nat t)) cashFlows 0.

(** The bisection loop of [computeIRR], [iterations] rounds from the
    bracket [low, high] with [fLow = npv low] and [fHigh = npv high]. *)
Fixpoint bisect (f : float -> float) (tol : float) (iterations : nat)
         (low high fLow fHigh : float) : float :=
  match iterations with
  | O => (low + high) / 2
  | S k =>
      let mid := (low + high) / 2 in
      let fMid := f mid in
      if Math_abs fMid <? tol then mid
      else if fLow * fMid <=? 0
           then bisect f tol k low mid fLow fMid
           else bisect f tol k mid high fMid fHigh
  end.

Definition computeIRR_with (cashFlows : list float)
           (guessLow guessHigh : float) (iterations : nat) (tol : float)
  : option float :=
  let low := guessLow in
  let high := guessHigh in
  let fLow := npv cashFlows low in
  let fHigh := npv cashFlows high in
  if 0 <? fLow * fHigh then None
  else Some (bisect (npv cashFlows) tol iterations low high fLow fHigh).

(** Defaults of the optional parameters. *)
Definition guessLow_default : float := -0.9999.
Definition guessHigh_default : float := 10.
Definition iterations_default : nat := 80.
Definition tol_default : float := 1e-6.

Definition computeIRR (cashFlows : list float) : option float :=
  computeIRR_with cashFlows guessLow_default guessHigh_default
                  iterations_default tol_default.

(** ** computeROI *)

Definition computeROI (totalNetProfit initialInvestment : float) : option float :=
  if negb (truthy_num initialInvestment) || (initialInvestment =? 0) then None
  else Some (totalNetProfit / initialInvestment).

(** ** computeBreakEven *)

Fixpoint breakEven_scan (i : nat) (cumulativeProfits : list float)
         (initialInvestment : float) : option nat :=
  match cumulativeProfits with
  | [] => None
  | c :: rest =>
      if initialInvestment <=? c then Some (S i)
      else breakEven_scan (S i) rest initialInvestment
  end.

Definition computeBreakEven (cumulativeProfits : list float)
           (initialInvestment : float) : option nat :=
  if negb (truthy_num initialInvestment) || (initialInvestment <=? 0) then None
  else breakEven_scan 0 cumulativeProfits initialInvestment.

(** ** computeRiskIndex *)

Definition computeRiskIndex (profits : list float) : RiskResult :=
  match profits with
  | [] => RiskNumber 0
  | _ =>
      let len := num_of_nat (List.length profits) in
      let mean := reduce (fun a b _ => a + b) profits 0 / len in
      let variance :=
        reduce (fun a b _ => a + Math_pow (b - mean) 2) profits 0 / len in
      let std := Math_sqrt variance in
      RiskRecord std mean std
  end.

(** ** simulation.js: runSimulation *)

(** The two lookups, [Business.findByPk] and [Strategy.findByPk]. *)
Variable Business_findByPk : JsVal -> option Business.
Variable Strategy_findByPk : JsVal -> option Strategy.

(** The loop [for (let t = 1; t <= periods; t++)] of [runSimulation], with
    [n] periods left to run from period [t].  [*] and [+] apply [Number] to
    their operands, so the running revenue and cost are numbers. *)
Fixpoint simple_loop (strategy : Strategy) (n t : nat) (revenue cost : float)
         (results : list SimpleRecord) : list SimpleRecord :=
  match n with
  | O => results
  | S n' =>
      let revenue := revenue * (1 + Number (s_growthRate strategy)) in
      let cost := cost * (1 + Number (s_costRate strategy)) in
      let profit := revenue - cost in
      simple_loop strategy n' (S t) revenue cost
                  (results ++ [mkSimpleRecord t revenue cost profit])
  end.

Definition runSimulation (businessId strategyId : JsVal) (periods : nat)
  : Result (list SimpleRecord) :=
  match Business_findByPk businessId, Strategy_findByPk strategyId with
  | Some business, Some strategy =>
      Ok (simple_loop strategy periods 1
                      (Number (b_revenue business)) (Number (b_cost business)) [])
  | _, _ => Throw "Invalid business or strategy"
  end.

(** ** advancedSimulation.js: runAdvancedSimulation *)

(** [scenarioDefaults[scenario] || scenarioDefaults.generic]. *)
Definition select_sDefaults (scenario : string) : ScenarioProfile :=
  match scenarioDefaults scenario with
  | Some p => p
  | None => scenario_generic
  end.

(** The base starting values and the strategy parameters. *)
Definition startRevenue (business : option Business) (overrides : Overrides) : float :=
  match business with
  | Some b => Number (b_revenue b)
  | None => Number (o_revenue overrides ||| JNum 1000)
  end.

Definition startCost (business : option Business) (overrides : Overrides) : float :=
  match business with
  | Some b => Number (b_cost b)
  | None => Number (o_cost overrides ||| JNum 500)
  end.

Definition initialInvestment_of (business : option Business) (overrides : Overrides) : float :=
  Number (o_initialInvestment overrides ??? opt_field business b_initialInvestment ??? JNum 0).

Definition startCash (business : option Business) (overrides : Overrides) : float :=
  Number (o_cashBalance overrides ??? opt_field business b_cashBalance ??? JNum 0).

Definition growthRateBase_of (strategy : option Strategy) (overrides : Overrides) : float :=
  match strategy with
  | Some s => Number (s_growthRate s)
  | None => Number (o_growthRate overrides ??? JNum 0.05)
  end.

Definition costRateBase_of (strategy : option Strategy) (overrides : Overrides) : float :=
  match strategy with
  | Some s => Number (s_costRate s)
  | None => Number (o_costRate overrides ??? JNum 0.02)
  end.

(** The working debts: [(overrides.debts || business?.debts || []).map(...)].
    An array, even an empty one, is truthy. *)
Definition debt_of_input (d : DebtInput) : Debt :=
  mkDebt (Number (di_principal d ||| di_amount d ||| JNum 0))
         (Number (di_annualRate d ||| di_rate d ||| JNum 0))
         (Number (di_periodsToRepay d ||| di_term d ||| JNum 0))
         (Number (di_startPeriod d ||| JNum 1))
         (Number (di_principal d ||| di_amount d ||| JNum 0)).

Definition debts_of (business : option Business) (overrides : Overrides) : list Debt :=
  let source :=
    match o_debts overrides with
    | Some l => l
    | None =>
        match business with
        | Some b => match b_debts b with Some l => l | None => [] end
        | None => []
        end
    end in
  map debt_of_input source.

(** One debt in period [t]: the body of [for (const d of debts)].  Returns
    the debt as the body leaves it and the running [debtPaymentTotal]. *)
Definition service_debt (t : float) (d : Debt) (debtPaymentTotal : float)
  : Debt * float :=
  if (d_startPeriod d <=? t) && (0 <? d_remaining d) then
    let n := d_periodsToRepay d in
    if n <=? 0 then (d, debtPaymentTotal)
    else
      let rate := d_annualRate d in
      let payment := (d_principal d * rate) / (1 - Math_pow (1 + rate) (- n)) in
      let paymentAmount := Math_min payment (d_remaining d + d_remaining d * rate) in
      (set_remaining d
         (Math_max 0 (d_remaining d - (paymentAmount - d_remaining d * rate))),
       debtPaymentTotal + paymentAmount)
  else (d, debtPaymentTotal).

Fixpoint service_debts (t : float) (debts : list Debt) (debtPaymentTotal : float)
  : list Debt * float :=
  match debts with
  | [] => ([], debtPaymentTotal)
  | d :: rest =>
      let (d', total') := service_debt t d debtPaymentTotal in
      let (rest', total'') := service_debts t rest total' in
      (d' :: rest', total'')
  end.

(** The one-time investments scheduled for period [t]. *)
Fixpoint investments_at (t : float) (oneTimeInvestments : list Investment)
         (investmentThisPeriod : float) : float :=
  match oneTimeInvestments with
  | [] => investmentThisPeriod
  | inv :: rest =>
      investments_at t rest
        (if strict_eq_num (inv_period inv) t
         then investmentThisPeriod + Number (inv_amount inv ||| JNum 0)
         else investmentThisPeriod)
  end.

Section PeriodLoop.

Variable overrides : Overrides.
Variables growthRateBase costRateBase : float.
Variable sDefaults : ScenarioProfile.
Variable oneTimeInvestments : list Investment.
Variables marketingPerPeriod priceDeltaPercent : float.
Variable stochastic : bool.
(** [Math.random()]: the draw made in period [t] (one draw per period). *)
Variable Math_random : nat -> float.

Definition extraRevenueFromMarketing (m : float) : float :=
  m * Number (o_marketingMultiplier overrides ??? JNum 2).

(** The body of [for (let t = 1; t <= periods; t++)]. *)
Definition period_step (t : nat) (st : LoopState) : LoopState :=
  let growthRate :=
    growthRateBase + Number (o_growthRateDelta overrides ??? JNum 0)
    + Number (growthRateBoost sDefaults ||| JNum 0) in
  let costRate := costRateBase + Number (o_costRateDelta overrides ??? JNum 0) in
  let revenue := st_revenue st * (1 + growthRate) in
  let revenue := revenue * (1 + priceDeltaPercent) in
  let revenue :=
    if 0 <? marketingPerPeriod
    then revenue + extraRevenueFromMarketing marketingPerPeriod
    else revenue in
  let revenue :=
    if stochastic then
      let vol := Number (costVolatility sDefaults ||| JNum 0.1) in
      let noise := (Math_random t * 2 - 1) * vol * revenue in
      Math_max 0 (revenue + noise)
    else revenue in
  let cost := st_cost st * (1 + costRate) in
  let cost := cost + marketingPerPeriod in
  let investmentThisPeriod := investments_at (num_of_nat t) oneTimeInvestments 0 in
  let profit := revenue - cost in
  let (debts, debtPaymentTotal) := service_debts (num_of_nat t) (st_debts st) 0 in
  let netThisPeriod := profit - investmentThisPeriod - debtPaymentTotal in
  let cash := st_cash st + netThisPeriod in
  let cumulativeProfit := st_cumulativeProfit st + profit in
  mkLoopState revenue cost cash cumulativeProfit debts
    (st_results st ++
       [mkPeriodRecord t revenue cost profit investmentThisPeriod
          debtPaymentTotal netThisPeriod cash cumulativeProfit
          (map (fun d => mkDebtSnapshot (d_remaining d) (d_principal d)) debts)])
    (st_cashFlows st ++ [netThisPeriod]).

(** [n] periods of the loop, from period [t] on. *)
Fixpoint period_loop (n t : nat) (st : LoopState) : LoopState :=
  match n with
  | O => st
  | S n' => period_loop n' (S t) (period_step t st)
  end.

End PeriodLoop.

(** The engine once its two records are fetched. *)
Definition simulate (business : option Business) (strategy : option Strategy)
           (periods : nat) (overrides : Overrides) (scenario : string)
           (stochastic : bool) (Math_random : nat -> float) : SimulationResult :=
  let revenue := startRevenue business overrides in
  let cost := startCost business overrides in
  let initialInvestment := initialInvestment_of business overrides in
  let cash := startCash business overrides in
  let growthRateBase := growthRateBase_of strategy overrides in
  let costRateBase := costRateBase_of strategy overrides in
  let sDefaults := select_sDefaults scenario in
  let debts := debts_of business overrides in
  let oneTimeInvestments :=
    match o_oneTimeInvestments overrides with Some l => l | None => [] end in
  let marketingPerPeriod := Number (o_marketingPerPeriod overrides ||| JNum 0) in
  let priceDeltaPercent := Number (o_priceDeltaPercent overrides ||| JNum 0) in
  let st :=
    period_loop overrides growthRateBase costRateBase sDefaults
                oneTimeInvestments marketingPerPeriod priceDeltaPercent
                stochastic Math_random periods 1
                (mkLoopState revenue cost cash 0 debts [] [- initialInvestment]) in
  let results := st_results st in
  let cashFlows := st_cashFlows st in
  let totalNetProfit := reduce (fun acc r _ => acc + pr_profit r) results 0 in
  let ROI := computeROI totalNetProfit initialInvestment in
  let irr := computeIRR cashFlows in
  let breakEven := computeBreakEven (map pr_cumulativeProfit results) initialInvestment in
  let risk := computeRiskIndex (map pr_profit results) in
  mkSimulationResult
    (mkMeta periods scenario overrides initialInvestment
       (Number (opt_field business b_revenue ??? o_revenue overrides
                ??? JNum (st_revenue st)))
       (Number (opt_field business b_cost ??? o_cost overrides
                ??? JNum (st_cost st))))
    results
    (mkKpis totalNetProfit ROI irr breakEven
       (risk_riskIndex risk) (risk_std risk) (risk_mean risk) cashFlows).

Definition runAdvancedSimulation (businessId strategyId : JsVal)
           (periods : nat) (overrides : Overrides) (scenario : string)
           (stochastic : bool) (Math_random : nat -> float)
  : Result SimulationResult :=
  let business := if truthy businessId then Business_findByPk businessId else None in
  let strategy := if truthy strategyId then Strategy_findByPk strategyId else None in
  if truthy businessId && absent business then Throw "Business not found"
  else if truthy strategyId && absent strategy then Throw "Strategy not found"
  else Ok (simulate business strategy periods overrides scenario
                    stochastic Math_random).

End Engine.

(** ** Notions the statements below are phrased with *)

(** Two numbers that [===] cannot tell apart, NaN matching NaN: equal, or
    zeros of either sign. *)
Definition same_value_zero (a b : float) : bool :=
  (a =? b) || (is_nan a && is_nan b).

(** The running sum [((0 + x1) + x2) + ...] of a list of numbers. *)
Definition sum_list (l : list float) : float :=
  fold_left add l 0.

(** A record of the advanced engine against one of the simple engine: the
    same period and revenue, and cost and profit that [===] cannot tell
    apart. *)
Definition same_trajectory (a : PeriodRecord) (s : SimpleRecord) : Prop :=
  pr_period a = sr_period s /\
  pr_revenue a = sr_revenue s /\
  same_value_zero (pr_cost a) (sr_cost s) = true /\
  same_value_zero (pr_profit a) (sr_profit s) = true.

(** The [remaining] balances recorded for the debts, period by period. *)
Definition remaining_history (r : SimulationResult) : list (list float) :=
  map (fun p => map ds_remaining (pr_debts p)) (results r).

(** The bracket of the bisection, and what one round that does not return
    makes of it. *)
Record Bracket : Type := mkBracket {
  br_low : float;
  br_high : float;
  br_fLow : float;
  br_fHigh : float
}.

Definition bracket_mid (b : Bracket) : float :=
  (br_low b + br_high b) / 2.

Definition bracket_next (f : float -> float) (b : Bracket) : Bracket :=
  let mid := bracket_mid b in
  let fMid := f mid in
  if br_fLow b * fMid <=? 0
  then mkBracket (br_low b) mid (br_fLow b) fMid
  else mkBracket mid (br_high b) fMid (br_fHigh b).

Fixpoint bracket_after (f : float -> float) (k : nat) (b : Bracket) : Bracket :=
  match k with
  | O => b
  | S k' => bracket_after f k' (bracket_next f b)
  end.

(** [|f(mid)| < tol] at the midpoint of a bracket. *)
Definition within_tol (f : float -> float) (tol : float) (b : Bracket) : bool :=
  Math_abs (f (bracket_mid b)) <? tol.

(** ** Sample inputs *)

Definition no_business (_ : JsVal) : option Business := None.
Definition no_strategy (_ : JsVal) : option Strategy := None.

(** A source of draws for runs that make none. *)
Definition half_draws (_ : nat) : float := 0.5.

Definition sample_business : Business :=
  mkBusiness (JNum 2000) (JNum 800) JUndefined JUndefined None.

Definition sample_strategy : Strategy :=
  mkStrategy (JNum 0.1) (JNum 0.05).

(** [overrides = {revenue: 3000, cost: 900, growthRate: 0, costRate: 0}]. *)
Definition sample_overrides : Overrides :=
  mkOverrides (JNum 3000) (JNum 900) JUndefined JUndefined (JNum 0) (JNum 0)
              JUndefined JUndefined None None JUndefined JUndefined JUndefined.

(** [overrides = {debts: [{principal, annualRate, periodsToRepay}]}]. *)
Definition one_debt (principal annualRate periodsToRepay : float) : Overrides :=
  mkOverrides JUndefined JUndefined JUndefined JUndefined JUndefined JUndefined
              JUndefined JUndefined
              (Some [mkDebtInput (JNum principal) JUndefined (JNum annualRate)
                                 JUndefined (JNum periodsToRepay) JUndefined
                                 JUndefined])
              None JUndefined JUndefined JUndefined.

(** A business with no cost yet, and a strategy whose cost rate is below -1. *)
Definition zero_cost_business : Business :=
  mkBusiness (JNum 1000) (JNum 0) JUndefined JUndefined None.

Definition shrinking_strategy : Strategy :=
  mkStrategy (JNum 0.5) (JNum (-2)).

(** Lookups that resolve every identifier to the same row. *)
Definition always_business (b : Business) (_ : JsVal) : option Business := Some b.
Definition always_strategy (s : Strategy) (_ : JsVal) : option Strategy := Some s.

(** [runAdvancedSimulation({periods: 2})]: every default. *)
Definition default_run : SimulationResult :=
  simulate pow_int None None 2 no_overrides "generic" false half_draws.

(** [overrides = {oneTimeInvestments: [{period: 1, amount: 100}]}]. *)
Definition one_investment : Overrides :=
  mkOverrides JUndefined JUndefined JUndefined JUndefined JUndefined JUndefined
              JUndefined JUndefined None
              (Some [mkInvestment (JNum 1) (JNum 100)])
              JUndefined JUndefined JUndefined.

(** ** Notions for the further properties *)

(** [x] multiplied [n] times by [k]: [((x * k) * k) * ...]. *)
Definition compound (x k : float) (n : nat) : float :=
  Nat.iter n (fun y => y * k) x.

(** A number that is at least 0, or NaN. *)
Definition nonneg_or_nan (x : float) : bool :=
  (0 <=? x) || is_nan x.

(** What a record keeps of a working debt. *)
Definition snapshot (d : Debt) : DebtSnapshot :=
  mkDebtSnapshot (d_remaining d) (d_principal d).

(** A debt the period loop passes over whatever the period: no positive
    number of periods to repay, or no positive balance. *)
Definition dormant (d : Debt) : bool :=
  (d_periodsToRepay d <=? 0) || negb (0 <? d_remaining d).

(** The overrides with other debts and one-time investments. *)
Definition with_financing (o : Overrides) (debts : option (list DebtInput))
           (investments : option (list Investment)) : Overrides :=
  mkOverrides (o_revenue o) (o_cost o) (o_initialInvestment o) (o_cashBalance o)
              (o_growthRate o) (o_costRate o) (o_growthRateDelta o)
              (o_costRateDelta o) debts investments (o_marketingPerPeriod o)
              (o_priceDeltaPercent o) (o_marketingMultiplier o).

(** The operating side of a record and of the KPIs: all but investments,
    debt payments, cash and the cash flows. *)
Definition operating_record (p : PeriodRecord) : nat * float * float * float * float :=
  (pr_period p, pr_revenue p, pr_cost p, pr_profit p, pr_cumulativeProfit p).

Definition operating_kpis (k : Kpis)
  : float * option float * option nat * JsVal * JsVal * JsVal :=
  (k_totalNetProfit k, k_ROI k, k_breakEvenPeriod k,
   k_riskIndex k, k_profitStdDev k, k_profitMean k).

(** The record fetched for an identifier: none for a falsy identifier. *)
Definition fetched {A : Type} (findByPk : JsVal -> option A) (id : JsVal) : option A :=
  if truthy id then findByPk id else None.

(** [overrides = {debts: [d1, d2]}], with a start period for each. *)
Definition two_debts : Overrides :=
  mkOverrides JUndefined JUndefined JUndefined JUndefined JUndefined JUndefined
              JUndefined JUndefined
              (Some [mkDebtInput (JNum 1000) JUndefined (JNum 0.1) JUndefined
                                 (JNum 2) JUndefined JUndefined;
                     mkDebtInput JUndefined (JNum 500) JUndefined (JNum 0.05)
                                 JUndefined JUndefined (JNum 2)])
              None JUndefined JUndefined JUndefined.

(** [runAdvancedSimulation({periods: 4, overrides: {initialInvestment: 1000,
    debts: [...]}, stochastic: true})] with draws of 0.25. *)
Definition quarter_draws (_ : nat) : float := 0.25.

Definition invested : Overrides :=
  mkOverrides JUndefined JUndefined (JNum 1000) (JNum 200) JUndefined JUndefined
              JUndefined JUndefined
              (Some [mkDebtInput (JNum 1000) JUndefined (JNum 0.1) JUndefined
                                 (JNum 2) JUndefined JUndefined])
              (Some [mkInvestment (JNum 2) (JNum 50)])
              (JNum 10) JUndefined JUndefined.

Definition invested_run : SimulationResult :=
  simulate pow_int None None 4 invested "startup" true quarter_draws.

(** One link of a fallback chain, as the engine resolves a starting value:
    the fetched record's field when a record was fetched; else the lever of
    [overrides] when it holds a number (a non-zero one, where zero does not
    count as a value); else, the lever being absent, the default. *)
Definition falls_back (from_record : option JsVal) (lever : JsVal)
           (zero_is_a_value : bool) (default : float) (x : float) : Prop :=
  match from_record with
  | Some v => x = Number v
  | None =>
      (exists n, lever = JNum n /\
                 (zero_is_a_value = true \/ truthy_num n = true) /\ x = n)
      \/ (lever = JUndefined /\ x = default)
  end.

(** [overrides = {revenue: 0, cost: 0}]. *)
Definition zero_overrides : Overrides :=
  mkOverrides (JNum 0) (JNum 0) JUndefined JUndefined JUndefined JUndefined
              JUndefined JUndefined None None JUndefined JUndefined JUndefined.

(** [runAdvancedSimulation({periods: 2, overrides: {revenue: 3000, cost: 900,
    growthRate: 0, costRate: 0}})]. *)
Definition sample_run : SimulationResult :=
  simulate pow_int None None 2 sample_overrides "generic" false half_draws.

(** [runAdvancedSimulation({periods: 1, overrides: {revenue: 0, cost: 0}})]. *)
Definition zero_run : SimulationResult :=
  simulate pow_int None None 1 zero_overrides "generic" false half_draws.

(** Two debts, the second with no term, over three periods. *)
Definition two_debts_run : SimulationResult :=
  simulate pow_int None None 3 two_debts "generic" false half_draws.

(** A single debt with a term of 0 periods, over three periods. *)
Definition no_term_run : SimulationResult :=
  simulate pow_int None None 3 (one_debt 1000 0.1 0) "generic" false half_draws.

(** * Properties *)

(** ** Facts about binary64 arithmetic *)

Lemma Prim2SF_one : Prim2SF 1 = S754_finite false 4503599627370496 (-52).
Proof. reflexivity. Qed.

Lemma Prim2SF_zero : Prim2SF 0 = S754_zero false.
Proof. reflexivity. Qed.

Lemma shr_exact_52 (m : positive) :
  iter_pos shr_1 52
    (Build_shr_record (Zpos (4503599627370496 * m)) false false)
  = Build_shr_record (Zpos m) false false.
Proof. reflexivity. Qed.

Lemma digits_shift_52 (m : positive) :
  Zpos (digits2_pos (4503599627370496 * m)) = (Zpos (digits2_pos m) + 52)%Z.
Proof. cbn [Pos.mul digits2_pos]. lia. Qed.

(** Rounding [m * 2^52] at exponent [e - 52] gives back [m] at [e]. *)
Lemma round_exact (s : bool) (m : positive) (e : Z) :
  bounded prec emax m e = true ->
  binary_round_aux prec emax s (Zpos (m * 4503599627370496)) (e + -52) loc_Exact
  = S754_finite s m e.
Proof.
  intros Hb. unfold bounded, canonical_mantissa in Hb.
  apply andb_true_iff in Hb. destruct Hb as [Hc He].
  apply Z.eqb_eq in Hc.
  rewrite Pos.mul_comm.
  unfold binary_round_aux, shr_fexp.
  unfold Zdigits2 at 1. rewrite digits_shift_52.
  replace (Z.pos (digits2_pos m) + 52 + (e + -52))%Z
    with (Z.pos (digits2_pos m) + e)%Z by lia.
  rewrite Hc.
  replace (e - (e + -52))%Z with 52%Z by lia.
  unfold shr at 1.
  change (shr_record_of_loc (Z.pos (4503599627370496 * m)) loc_Exact)
    with (Build_shr_record (Zpos (4503599627370496 * m)) false false).
  rewrite shr_exact_52.
  cbn [shr_m loc_of_shr_record round_nearest_even].
  replace (e + -52 + 52)%Z with e by lia.
  unfold Zdigits2. rewrite Hc. rewrite Z.sub_diag.
  cbn [shr shr_record_of_loc shr_m].
  rewrite He. reflexivity.
Qed.

(** [x * 1] is [x], for every number. *)
Lemma mul_one_r (x : float) : x * 1 = x.
Proof.
  apply Prim2SF_inj. rewrite mul_spec, Prim2SF_one.
  pose proof (Prim2SF_valid x) as Hv.
  destruct (Prim2SF x) as [s|s| |s m e]; unfold SF64mul, SFmul;
    rewrite ?xorb_false_r; try reflexivity.
  apply round_exact. exact Hv.
Qed.

(** [x + 0] is [x], except that [-0 + 0] is [+0]. *)
Lemma add_zero_r (x : float) :
  x + 0 = x \/ (Prim2SF x = S754_zero true /\ Prim2SF (x + 0) = S754_zero false).
Proof.
  pose proof (add_spec x 0) as H. rewrite Prim2SF_zero in H.
  destruct (Prim2SF x) as [[|]|s| |s m e] eqn:E; cbn in H.
  - right. split; [reflexivity | exact H].
  - left. apply Prim2SF_inj. congruence.
  - left. apply Prim2SF_inj. congruence.
  - left. apply Prim2SF_inj. congruence.
  - left. apply Prim2SF_inj. congruence.
Qed.

(** [1 + x] does not see the sign of a zero [x]. *)
Lemma one_plus_zero (x : float) (s : bool) :
  Prim2SF x = S754_zero s -> 1 + x = 1.
Proof.
  intros E. apply Prim2SF_inj. rewrite add_spec, E, Prim2SF_one. reflexivity.
Qed.

Lemma one_plus_add_zero (x : float) : 1 + (x + 0) = 1 + x.
Proof.
  destruct (add_zero_r x) as [-> | [E1 E2]]; [reflexivity|].
  rewrite (one_plus_zero _ _ E1), (one_plus_zero _ _ E2). reflexivity.
Qed.

Lemma one_plus_add_zero_zero (x : float) : 1 + (x + 0 + 0) = 1 + x.
Proof. rewrite one_plus_add_zero. apply one_plus_add_zero. Qed.

(** What [same_value_zero] means on the specification side. *)
Lemma same_value_zero_refl (x : float) : same_value_zero x x = true.
Proof. unfold same_value_zero, is_nan. destruct (x =? x); reflexivity. Qed.

Lemma same_value_zero_zeros (x y : float) (s s' : bool) :
  Prim2SF x = S754_zero s -> Prim2SF y = S754_zero s' ->
  same_value_zero x y = true.
Proof.
  intros Ex Ey. unfold same_value_zero. rewrite eqb_spec, Ex, Ey. reflexivity.
Qed.

Lemma same_value_zero_nans (x y : float) :
  Prim2SF x = S754_nan -> Prim2SF y = S754_nan -> same_value_zero x y = true.
Proof.
  intros Ex Ey. unfold same_value_zero, is_nan.
  rewrite !eqb_spec, Ex, Ey. reflexivity.
Qed.

Lemma Pos_compare_cont_Eq (m1 m2 : positive) :
  Pos.compare_cont Eq m1 m2 = Eq -> m1 = m2.
Proof. intros H. apply Pos.compare_eq. exact H. Qed.

Lemma SFeqb_self_false (X : spec_float) : SFeqb X X = false -> X = S754_nan.
Proof.
  destruct X as [s|s| |s m e]; try reflexivity; unfold SFeqb, SFcompare.
  - discriminate.
  - destruct s; discriminate.
  - rewrite Z.compare_refl, Pos.compare_cont_refl. destruct s; discriminate.
Qed.

Lemma SFeqb_true_cases (X Y : spec_float) :
  SFeqb X Y = true ->
  X = Y \/ (exists s s', X = S754_zero s /\ Y = S754_zero s').
Proof.
  intros H.
  destruct X as [sx|sx| |sx mx ex]; destruct Y as [sy|sy| |sy my ey];
    try (right; eexists; eexists; split; reflexivity);
    left; try reflexivity;
    repeat match goal with s : bool |- _ => destruct s end;
    try reflexivity; try (cbn in H; discriminate);
    unfold SFeqb, SFcompare in H;
    destruct (Z.compare ex ey) eqn:Ec; try (cbn in H; discriminate);
    apply Z.compare_eq in Ec; subst ey;
    destruct (Pos.compare_cont Eq mx my) eqn:Em; try (cbn in H; discriminate);
    apply Pos_compare_cont_Eq in Em; subst my; reflexivity.
Qed.

Lemma same_value_zero_cases (x y : float) :
  same_value_zero x y = true ->
  x = y \/ (exists s s', Prim2SF x = S754_zero s /\ Prim2SF y = S754_zero s').
Proof.
  unfold same_value_zero, is_nan. rewrite !eqb_spec.
  intros H. apply orb_true_iff in H. destruct H as [H | H].
  - destruct (SFeqb_true_cases _ _ H) as [E | E].
    + left. apply Prim2SF_inj. exact E.
    + right. exact E.
  - apply andb_true_iff in H. destruct H as [Hx Hy].
    apply negb_true_iff in Hx, Hy.
    left. apply Prim2SF_inj.
    rewrite (SFeqb_self_false _ Hx), (SFeqb_self_false _ Hy). reflexivity.
Qed.


Lemma same_value_zero_trans (x y z : float) :
  same_value_zero x y = true -> same_value_zero y z = true ->
  same_value_zero x z = true.
Proof.
  intros Hxy Hyz.
  destruct (same_value_zero_cases _ _ Hxy) as [-> | (s1 & s2 & E1 & E2)];
    [exact Hyz|].
  destruct (same_value_zero_cases _ _ Hyz) as [<- | (s3 & s4 & E3 & E4)];
    [exact Hxy|].
  exact (same_value_zero_zeros _ _ _ _ E1 E4).
Qed.

Lemma same_value_zero_add_zero (x : float) : same_value_zero (x + 0) x = true.
Proof.
  destruct (add_zero_r x) as [-> | [E1 E2]].
  - apply same_value_zero_refl.
  - exact (same_value_zero_zeros _ _ _ _ E2 E1).
Qed.

(** A product does not see the sign of a zero factor, up to the sign of a
    zero result. *)
Lemma same_value_zero_mul (x y k : float) :
  same_value_zero x y = true -> same_value_zero (x * k) (y * k) = true.
Proof.
  intros H.
  destruct (same_value_zero_cases _ _ H) as [-> | (s1 & s2 & E1 & E2)];
    [apply same_value_zero_refl|].
  pose proof (mul_spec x k) as Hx. pose proof (mul_spec y k) as Hy.
  rewrite E1 in Hx. rewrite E2 in Hy.
  destruct (Prim2SF k) as [sk|sk| |sk mk ek]; cbn in Hx, Hy.
  - exact (same_value_zero_zeros _ _ _ _ Hx Hy).
  - exact (same_value_zero_nans _ _ Hx Hy).
  - exact (same_value_zero_nans _ _ Hx Hy).
  - exact (same_value_zero_zeros _ _ _ _ Hx Hy).
Qed.

(** Nor does a difference see the sign of a zero subtrahend. *)
Lemma same_value_zero_sub (r x y : float) :
  same_value_zero x y = true -> same_value_zero (r - x) (r - y) = true.
Proof.
  intros H.
  destruct (same_value_zero_cases _ _ H) as [-> | (s1 & s2 & E1 & E2)];
    [apply same_value_zero_refl|].
  pose proof (sub_spec r x) as Hx. pose proof (sub_spec r y) as Hy.
  rewrite E1 in Hx. rewrite E2 in Hy.
  destruct (Prim2SF r) as [sr|sr| |sr mr er] eqn:Er.
  - assert (exists a b, Prim2SF (r - x) = S754_zero a /\ Prim2SF (r - y) = S754_zero b)
      as (a & b & Ha & Hb).
    { destruct sr, s1, s2; cbn in Hx, Hy; eauto. }
    exact (same_value_zero_zeros _ _ _ _ Ha Hb).
  - cbn in Hx, Hy. rewrite <- Hy in Hx. apply Prim2SF_inj in Hx. rewrite Hx.
    apply same_value_zero_refl.
  - exact (same_value_zero_nans _ _ Hx Hy).
  - cbn in Hx, Hy. rewrite <- Hy in Hx. apply Prim2SF_inj in Hx. rewrite Hx.
    apply same_value_zero_refl.
Qed.

(** Comparisons with zero. *)
Lemma ltb_zero_not_falsy (x : float) :
  (x <? 0) = true -> truthy_num x = true.
Proof.
  unfold truthy_num, is_nan. rewrite ltb_spec, !eqb_spec, Prim2SF_zero.
  destruct (Prim2SF x) as [s|s| |s m e]; unfold SFltb, SFeqb, SFcompare;
    try discriminate;
    try (destruct s; intros H; try discriminate H; reflexivity).
  intros _. rewrite Z.compare_refl, Pos.compare_cont_refl. destruct s; reflexivity.
Qed.

Lemma leb_zero_not_gt (x : float) :
  (x <=? 0) = true -> (0 <? x) = false.
Proof.
  rewrite leb_spec, ltb_spec, Prim2SF_zero.
  destruct (Prim2SF x) as [s|s| |s m e]; unfold SFleb, SFltb, SFcompare;
    try discriminate; try reflexivity;
    destruct s; intros H; try discriminate H; reflexivity.
Qed.

(** ** Starting values and the override levers *)

(** C1, as stated, fails: with a business record resolved, the starting
    revenue and cost of the period loop are the record's, whatever
    [overrides.revenue] and [overrides.cost] hold; with a strategy record
    resolved the same goes for the two rate bases. *)
Lemma C1_override_ignored_when_record_resolved :
  o_revenue sample_overrides = JNum 3000 /\
  startRevenue (Some sample_business) sample_overrides = 2000 /\
  (2000 =? 3000) = false /\
  o_cost sample_overrides = JNum 900 /\
  startCost (Some sample_business) sample_overrides = 800 /\
  o_growthRate sample_overrides = JNum 0 /\
  growthRateBase_of (Some sample_strategy) sample_overrides = 0.1 /\
  o_costRate sample_overrides = JNum 0 /\
  costRateBase_of (Some sample_strategy) sample_overrides = 0.05 /\
  map pr_revenue
      (results (simulate pow_int (Some sample_business) None 1 sample_overrides
                         "generic" false half_draws)) = [2000].
Proof. repeat split; vm_compute; reflexivity. Qed.

(** The fallback chains of the base starting values and of the strategy
    parameters, case by case. *)
Lemma starting_values_fall_back
        (business : option Business) (strategy : option Strategy)
        (overrides : Overrides) (x : float) :
  (forall b, business = Some b ->
     startRevenue business overrides = Number (b_revenue b) /\
     startCost business overrides = Number (b_cost b)) /\
  (forall s, strategy = Some s ->
     growthRateBase_of strategy overrides = Number (s_growthRate s) /\
     costRateBase_of strategy overrides = Number (s_costRate s)) /\
  (business = None -> truthy_num x = true ->
     (o_revenue overrides = JNum x -> startRevenue business overrides = x) /\
     (o_cost overrides = JNum x -> startCost business overrides = x)) /\
  (business = None ->
     (o_revenue overrides = JUndefined -> startRevenue business overrides = 1000) /\
     (o_cost overrides = JUndefined -> startCost business overrides = 500)) /\
  (strategy = None ->
     (o_growthRate overrides = JNum x -> growthRateBase_of strategy overrides = x) /\
     (o_costRate overrides = JNum x -> costRateBase_of strategy overrides = x) /\
     (o_growthRate overrides = JUndefined ->
        growthRateBase_of strategy overrides = 0.05) /\
     (o_costRate overrides = JUndefined ->
        costRateBase_of strategy overrides = 0.02)) /\
  (o_initialInvestment overrides = JNum x ->
     initialInvestment_of business overrides = x) /\
  (o_cashBalance overrides = JNum x -> startCash business overrides = x).
Proof.
  split; [|split; [|split; [|split; [|split; [|split]]]]].
  - intros b ->. split; reflexivity.
  - intros s ->. split; reflexivity.
  - intros -> Hx. split; intros E.
    + unfold startRevenue, js_or. rewrite E. cbn [truthy]. rewrite Hx. reflexivity.
    + unfold startCost, js_or. rewrite E. cbn [truthy]. rewrite Hx. reflexivity.
  - intros ->. split; intros E.
    + unfold startRevenue. rewrite E. reflexivity.
    + unfold startCost. rewrite E. reflexivity.
  - intros ->. unfold growthRateBase_of, costRateBase_of.
    repeat split; intros E; rewrite E; reflexivity.
  - intros E. unfold initialInvestment_of. rewrite E. reflexivity.
  - intros E. unfold startCash. rewrite E. reflexivity.
Qed.

(** ** ROI and break-even on a degenerate investment *)

(** C2, as stated, fails: a negative [initialInvestment] is truthy and is not
    [=== 0], so [computeROI] divides by it. *)
Lemma C2_negative_investment_has_roi :
  (-500 <? 0) = true /\ computeROI 1000 (-500) = Some (-2).
Proof. split; reflexivity. Qed.

(** C2, amended: [computeROI] returns null exactly when [initialInvestment]
    is zero (of either sign) or NaN, and [totalNetProfit / initialInvestment]
    otherwise, a negative [initialInvestment] included; [computeBreakEven]
    returns null whenever [initialInvestment] is zero, negative or NaN.
    Neither raises. *)
Theorem C2_degenerate_investment
        (totalNetProfit initialInvestment : float) (cumulativeProfits : list float) :
  (computeROI totalNetProfit initialInvestment = None <->
     (initialInvestment =? 0) = true \/ is_nan initialInvestment = true) /\
  ((initialInvestment =? 0) = false -> is_nan initialInvestment = false ->
     computeROI totalNetProfit initialInvestment
     = Some (totalNetProfit / initialInvestment)) /\
  ((initialInvestment <? 0) = true ->
     computeROI totalNetProfit initialInvestment
     = Some (totalNetProfit / initialInvestment)) /\
  ((initialInvestment <=? 0) = true ->
     computeBreakEven cumulativeProfits initialInvestment = None) /\
  (is_nan initialInvestment = true ->
     computeBreakEven cumulativeProfits initialInvestment = None).
Proof.
  assert (Hroi : (initialInvestment =? 0) = false ->
                 is_nan initialInvestment = false ->
                 computeROI totalNetProfit initialInvestment
                 = Some (totalNetProfit / initialInvestment)).
  { intros Hz Hn. unfold computeROI, truthy_num. rewrite Hz, Hn. reflexivity. }
  split; [|split; [exact Hroi|split; [|split]]].
  - unfold computeROI, truthy_num. split.
    + destruct (initialInvestment =? 0); [left; reflexivity|].
      destruct (is_nan initialInvestment); [right; reflexivity|].
      discriminate.
    + intros [Hz | Hn].
      * rewrite Hz. reflexivity.
      * rewrite Hn, orb_true_r. reflexivity.
  - intros Hneg. pose proof (ltb_zero_not_falsy _ Hneg) as Ht.
    unfold truthy_num in Ht. apply negb_true_iff, orb_false_iff in Ht.
    destruct Ht as [Hz Hn]. exact (Hroi Hz Hn).
  - intros Hle. unfold computeBreakEven. rewrite Hle, orb_true_r. reflexivity.
  - intros Hn. unfold computeBreakEven, truthy_num.
    rewrite Hn, orb_true_r. reflexivity.
Qed.

(** The amended C2 at [initialInvestment = -500]. *)
Lemma C2_degenerate_investment_witness :
  computeROI 1000 (-500) = Some (1000 / -500) /\
  computeBreakEven [100; 250; 600] (-500) = None.
Proof.
  pose proof (C2_degenerate_investment 1000 (-500) [100; 250; 600])
    as (_ & _ & Hneg & Hle & _).
  split.
  - apply Hneg. reflexivity.
  - apply Hle. reflexivity.
Defined.

(** The calculators on the inputs the specification lists. *)
Example computeROI_examples :
  computeROI 1000 0 = None /\ computeROI 1000 500 = Some 2.
Proof. split; reflexivity. Qed.

Example computeBreakEven_examples :
  computeBreakEven [100; 250; 600] 500 = Some 3%nat /\
  computeBreakEven [100; 200] 500 = None.
Proof. split; reflexivity. Qed.

(** ** Risk index *)

(** C3 on the code: for a non-empty list [computeRiskIndex] returns the record
    [{std, mean, riskIndex}] with [riskIndex] equal to [std]; for the empty
    list it returns the bare number 0, not the record [{std: 0, mean: 0,
    riskIndex: 0}], so that a run of zero periods reports [riskIndex],
    [profitStdDev] and [profitMean] as undefined. *)
Theorem C3_riskIndex_record_but_for_no_profits
        (Math_pow : float -> float -> float) :
  (forall p ps, exists std mean,
      computeRiskIndex Math_pow (p :: ps) = RiskRecord std mean std) /\
  computeRiskIndex Math_pow [] = RiskNumber 0 /\
  (forall business strategy overrides scenario stochastic Math_random,
      let k := kpis (simulate Math_pow business strategy 0 overrides scenario
                              stochastic Math_random) in
      k_riskIndex k = JUndefined /\
      k_profitStdDev k = JUndefined /\
      k_profitMean k = JUndefined).
Proof.
  split; [|split].
  - intros p ps. eexists. eexists. reflexivity.
  - reflexivity.
  - intros. repeat split; reflexivity.
Qed.

Example computeRiskIndex_constant_profits :
  computeRiskIndex pow_int [10; 10; 10] = RiskRecord 0 10 0.
Proof. reflexivity. Qed.

(** ** Debt service *)

(** C4 on the code: a debt of 1000 at rate 0 over 4 periods.  The annuity
    payment is [0 / (1 - 1)], which is NaN, and so is [remaining] from the
    first serviced period on: it is neither at most the principal nor at
    least 0. *)
Theorem C4_zero_rate_debt_remaining_is_nan
        (Math_pow : float -> float -> float)
        (Business_findByPk : JsVal -> option Business)
        (Strategy_findByPk : JsVal -> option Strategy)
        (Math_random : nat -> float)
        (Hpow : Math_pow 1 (-4) = 1) :
  exists r,
    runAdvancedSimulation Math_pow Business_findByPk Strategy_findByPk
                          JNull JNull 2 (one_debt 1000 0 4) "generic" false
                          Math_random
    = Ok r /\
    remaining_history r = [[nan]; [nan]] /\
    (0 <=? nan) = false /\ (nan <=? 1000) = false.
Proof.
  eexists. split; [reflexivity|]. split; [|split; reflexivity].
  unfold remaining_history, simulate.
  cbn [results]. lazy. rewrite Hpow. lazy. reflexivity.
Qed.

Lemma pow_int_one : pow_int 1 (-4) = 1.
Proof. reflexivity. Qed.

(** The run of C4 with the concrete power function. *)
Lemma C4_zero_rate_debt_remaining_is_nan_witness :
  exists r,
    runAdvancedSimulation pow_int no_business no_strategy
                          JNull JNull 2 (one_debt 1000 0 4) "generic" false
                          half_draws
    = Ok r /\
    remaining_history r = [[nan]; [nan]] /\
    (0 <=? nan) = false /\ (nan <=? 1000) = false.
Proof.
  exact (C4_zero_rate_debt_remaining_is_nan pow_int no_business no_strategy
           half_draws pow_int_one).
Defined.

(** A debt at 10% is paid down as the claim says. *)
Example remaining_history_at_ten_percent :
  remaining_history
    (simulate pow_int None None 5 (one_debt 1000 0.1 4) "generic" false half_draws)
  = [[784.52919629390249]; [547.51131221719515]; [286.79163973281709];
     [1.2505552149377763e-12]; [0]].
Proof. vm_compute. reflexivity. Qed.

(** ** The root finder *)

Lemma bisect_step (f : float -> float) (tol : float) (n : nat) (b : Bracket) :
  bisect f tol (S n) (br_low b) (br_high b) (br_fLow b) (br_fHigh b)
  = if within_tol f tol b then bracket_mid b
    else let b' := bracket_next f b in
         bisect f tol n (br_low b') (br_high b') (br_fLow b') (br_fHigh b').
Proof.
  cbn [bisect]. unfold within_tol, bracket_next, bracket_mid.
  destruct (Math_abs (f ((br_low b + br_high b) / 2)) <? tol); [reflexivity|].
  cbv zeta.
  destruct (br_fLow b * f ((br_low b + br_high b) / 2) <=? 0); reflexivity.
Qed.

(** What the bisection loop returns: the midpoint of the first bracket whose
    midpoint is within tolerance, or the midpoint of the bracket left after
    all the rounds. *)
Lemma bisect_characterised (f : float -> float) (tol : float) (n : nat) :
  forall b : Bracket,
  let r := bisect f tol n (br_low b) (br_high b) (br_fLow b) (br_fHigh b) in
  (exists k, (k < n)%nat /\
     (forall j, (j < k)%nat -> within_tol f tol (bracket_after f j b) = false) /\
     within_tol f tol (bracket_after f k b) = true /\
     r = bracket_mid (bracket_after f k b))
  \/ ((forall j, (j < n)%nat -> within_tol f tol (bracket_after f j b) = false) /\
      r = bracket_mid (bracket_after f n b)).
Proof.
  induction n as [|n IH]; intros b r.
  - right. split; [intros j Hj; lia | reflexivity].
  - subst r. rewrite bisect_step.
    destruct (within_tol f tol b) eqn:Hb.
    + left. exists 0%nat. repeat split; [lia | intros j Hj; lia | exact Hb].
    + cbv zeta.
      destruct (IH (bracket_next f b)) as [(k & Hk & Hbefore & Hat & Hr) | [Hall Hr]].
      * left. exists (S k). repeat split; [lia | | exact Hat | exact Hr].
        intros [|j] Hj; [exact Hb | apply Hbefore; lia].
      * right. split; [|exact Hr].
        intros [|j] Hj; [exact Hb | apply Hall; lia].
Qed.

(** C6: with the default bounds, [computeIRR] returns null exactly when
    [NPV(low) * NPV(high) > 0]; otherwise (the product at most 0, or NaN) it
    returns a number: the first bisection midpoint with [|NPV(mid)| < tol]
    among the 80 rounds, or else the midpoint of the bracket left after the
    80 rounds. *)
Theorem C6_computeIRR_null_iff_same_sign
        (Math_pow : float -> float -> float) (cashFlows : list float) :
  let NPV := npv Math_pow cashFlows in
  let product := NPV guessLow_default * NPV guessHigh_default in
  let b0 := mkBracket guessLow_default guessHigh_default
                      (NPV guessLow_default) (NPV guessHigh_default) in
  (computeIRR Math_pow cashFlows = None <-> (0 <? product) = true) /\
  ((product <=? 0) = true -> (0 <? product) = false) /\
  ((0 <? product) = false ->
   exists r, computeIRR Math_pow cashFlows = Some r /\
     ((exists k, (k < 80)%nat /\
         (forall j, (j < k)%nat ->
            within_tol NPV tol_default (bracket_after NPV j b0) = false) /\
         within_tol NPV tol_default (bracket_after NPV k b0) = true /\
         r = bracket_mid (bracket_after NPV k b0))
      \/ ((forall j, (j < 80)%nat ->
             within_tol NPV tol_default (bracket_after NPV j b0) = false) /\
          r = bracket_mid (bracket_after NPV 80 b0)))).
Proof.
  intros NPV product b0.
  unfold computeIRR, computeIRR_with. fold NPV. fold product.
  split; [|split].
  - destruct (0 <? product); split; intros H; try reflexivity; discriminate.
  - apply leb_zero_not_gt.
  - intros Hp. rewrite Hp. eexists. split; [reflexivity|].
    exact (bisect_characterised NPV tol_default iterations_default b0).
Qed.

(** [computeIRR([-100, 110])] is 0.10 within 1e-4. *)
Example computeIRR_example :
  exists r, computeIRR pow_int [-100; 110] = Some r /\
            (Math_abs (r - 0.10) <? 1e-4) = true.
Proof. eexists. split; vm_compute; reflexivity. Qed.

(** At [[-100, 110]] the two end values have opposite signs, and a rate is
    returned. *)
Example computeIRR_example_not_null :
  (0 <? npv pow_int [-100; 110] guessLow_default
        * npv pow_int [-100; 110] guessHigh_default) = false /\
  computeIRR pow_int [-100; 110] <> None.
Proof. split; [reflexivity | vm_compute; discriminate]. Qed.

(** ** The period loop *)

Lemma reduce_from_sum (l : list PeriodRecord) :
  forall (i : nat) (acc : float),
  reduce_from (fun acc r _ => acc + pr_profit r) i l acc
  = fold_left add (map pr_profit l) acc.
Proof.
  induction l as [|r l IH]; intros i acc; [reflexivity|].
  cbn [reduce_from map fold_left]. apply IH.
Qed.

Lemma sum_list_snoc (l : list float) (x : float) :
  sum_list (l ++ [x]) = sum_list l + x.
Proof. unfold sum_list. rewrite fold_left_app. reflexivity. Qed.

Section LoopFacts.

Variable Math_pow : float -> float -> float.
Variable overrides : Overrides.
Variables growthRateBase costRateBase : float.
Variable sDefaults : ScenarioProfile.
Variable oneTimeInvestments : list Investment.
Variables marketingPerPeriod priceDeltaPercent : float.
Variable stochastic : bool.
Variable Math_random : nat -> float.

Let step : nat -> LoopState -> LoopState :=
  period_step Math_pow overrides growthRateBase costRateBase sDefaults
              oneTimeInvestments marketingPerPeriod priceDeltaPercent
              stochastic Math_random.

Let loop : nat -> nat -> LoopState -> LoopState :=
  period_loop Math_pow overrides growthRateBase costRateBase sDefaults
              oneTimeInvestments marketingPerPeriod priceDeltaPercent
              stochastic Math_random.

(** One period appends one record and one cash flow; the record carries the
    period number and the working variables as the period leaves them. *)
Lemma step_appends (t : nat) (st : LoopState) :
  exists rec,
    st_results (step t st) = st_results st ++ [rec] /\
    st_cashFlows (step t st) = st_cashFlows st ++ [pr_netCashFlow rec] /\
    pr_period rec = t /\
    pr_revenue rec = st_revenue (step t st) /\
    pr_cost rec = st_cost (step t st) /\
    pr_cumulativeProfit rec = st_cumulativeProfit (step t st) /\
    st_cumulativeProfit (step t st) = st_cumulativeProfit st + pr_profit rec.
Proof.
  unfold step, period_step.
  destruct (service_debts Math_pow (num_of_nat t) (st_debts st) 0) as [debts total].
  eexists. cbn. repeat split.
Qed.

(** An invariant of the period body is an invariant of the loop. *)
Lemma loop_invariant (I : nat -> LoopState -> Prop) :
  (forall t st, I t st -> I (S t) (step t st)) ->
  forall n t st, I t st -> I (n + t)%nat (loop n t st).
Proof.
  intros Hstep. induction n as [|n IH]; intros t st H; [exact H|].
  cbn [period_loop loop]. replace (S n + t)%nat with (n + S t)%nat by lia.
  apply IH. apply Hstep. exact H.
Qed.

(** Records so far: one per period run, numbered from 1; the first cash flow
    stays where it was seeded. *)
Lemma loop_numbered (n : nat) (st : LoopState) :
  st_results st = [] -> List.length (st_cashFlows st) = 1%nat ->
  let st' := loop n 1 st in
  List.length (st_results st') = n /\
  List.length (st_cashFlows st') = S n /\
  (forall p rec, nth_error (st_results st') p = Some rec -> pr_period rec = S p) /\
  hd_error (st_cashFlows st') = hd_error (st_cashFlows st).
Proof.
  intros Hres Hcf.
  pose (I := fun (t : nat) (s : LoopState) =>
               S (List.length (st_results s)) = t /\
               List.length (st_cashFlows s) = t /\
               (forall p rec, nth_error (st_results s) p = Some rec ->
                              pr_period rec = S p) /\
               hd_error (st_cashFlows s) = hd_error (st_cashFlows st)).
  assert (HI : I (n + 1)%nat (loop n 1 st)).
  { apply loop_invariant.
    - intros t s (Hl & Hc & Hp & Hh).
      destruct (step_appends t s) as (rec & Er & Ec & Ep & _).
      unfold I. rewrite Er, Ec, !length_app. cbn [List.length].
      repeat split; try lia.
      + intros p r Hn.
        destruct (Nat.lt_ge_cases p (List.length (st_results s))) as [Hlt | Hge].
        * rewrite nth_error_app1 in Hn by exact Hlt. exact (Hp p r Hn).
        * rewrite nth_error_app2 in Hn by exact Hge.
          destruct (p - List.length (st_results s))%nat as [|q] eqn:Eq.
          -- cbn in Hn. injection Hn as <-. rewrite Ep. lia.
          -- cbn in Hn. destruct q; discriminate.
      + rewrite <- Hh. destruct (st_cashFlows s); [cbn in Hc; lia | reflexivity].
    - unfold I. rewrite Hres, Hcf. cbn. repeat split. intros [|p] r; discriminate. }
  destruct HI as (Hl & Hc & Hp & Hh).
  cbv zeta. repeat split; try lia; assumption.
Qed.

(** The running totals: the cumulative profit is the running sum of the
    recorded profits, in every record and in the working variable; the
    working revenue and cost are those of the last record. *)
Lemma loop_running (n : nat) (st : LoopState) :
  st_results st = [] -> st_cumulativeProfit st = 0 ->
  let st' := loop n 1 st in
  st_cumulativeProfit st' = sum_list (map pr_profit (st_results st')) /\
  (forall p rec, nth_error (st_results st') p = Some rec ->
     pr_cumulativeProfit rec
     = sum_list (map pr_profit (firstn (S p) (st_results st')))) /\
  st_revenue st' = last (map pr_revenue (st_results st')) (st_revenue st) /\
  st_cost st' = last (map pr_cost (st_results st')) (st_cost st).
Proof.
  intros Hres Hcum.
  pose (I := fun (t : nat) (s : LoopState) =>
    st_cumulativeProfit s = sum_list (map pr_profit (st_results s)) /\
    (forall p rec, nth_error (st_results s) p = Some rec ->
       pr_cumulativeProfit rec
       = sum_list (map pr_profit (firstn (S p) (st_results s)))) /\
    st_revenue s = last (map pr_revenue (st_results s)) (st_revenue st) /\
    st_cost s = last (map pr_cost (st_results s)) (st_cost st)).
  assert (HI : I (n + 1)%nat (loop n 1 st)).
  { apply loop_invariant.
    - intros t s (Hc & Hp & Hr & Hk).
      destruct (step_appends t s) as (rec & Er & _ & _ & Erev & Ecost & Ecum & Esum).
      unfold I. rewrite Er, !map_app. cbn [map].
      rewrite sum_list_snoc, !last_last. repeat split.
      + rewrite Esum, Hc. reflexivity.
      + intros p r Hn.
        destruct (Nat.lt_ge_cases p (List.length (st_results s))) as [Hlt | Hge].
        * rewrite nth_error_app1 in Hn by exact Hlt.
          rewrite firstn_app.
          replace (S p - List.length (st_results s))%nat with 0%nat by lia.
          cbn [firstn]. rewrite app_nil_r. exact (Hp p r Hn).
        * rewrite nth_error_app2 in Hn by exact Hge.
          destruct (p - List.length (st_results s))%nat as [|q] eqn:Eq.
          -- cbn in Hn. injection Hn as <-.
             rewrite firstn_all2 by (rewrite length_app; cbn; lia).
             rewrite map_app. cbn [map]. rewrite sum_list_snoc.
             rewrite Ecum, Esum, Hc. reflexivity.
          -- cbn in Hn. destruct q; discriminate.
      + symmetry. exact Erev.
      + symmetry. exact Ecost.
    - unfold I. rewrite Hres, Hcum. cbn. repeat split. intros [|p] r; discriminate. }
  exact HI.
Qed.

(** Without [stochastic], the loop makes no draw. *)
Lemma loop_no_draws (Math_random' : nat -> float) (n : nat) :
  stochastic = false ->
  forall t st,
  loop n t st
  = period_loop Math_pow overrides growthRateBase costRateBase sDefaults
                oneTimeInvestments marketingPerPeriod priceDeltaPercent
                stochastic Math_random' n t st.
Proof.
  intros Hs. unfold loop. rewrite Hs.
  induction n as [|n IH]; intros t st; [reflexivity|].
  cbn [period_loop]. rewrite IH. reflexivity.
Qed.

End LoopFacts.

(** ** Runs of the advanced engine *)

(** The engine runs whenever the identifiers it is given resolve. *)
Lemma runAdvancedSimulation_inv
      (Math_pow : float -> float -> float)
      (Business_findByPk : JsVal -> option Business)
      (Strategy_findByPk : JsVal -> option Strategy)
      (businessId strategyId : JsVal) (periods : nat) (overrides : Overrides)
      (scenario : string) (stochastic : bool) (Math_random : nat -> float)
      (r : SimulationResult) :
  runAdvancedSimulation Math_pow Business_findByPk Strategy_findByPk
                        businessId strategyId periods overrides scenario
                        stochastic Math_random = Ok r ->
  r = simulate Math_pow
               (if truthy businessId then Business_findByPk businessId else None)
               (if truthy strategyId then Strategy_findByPk strategyId else None)
               periods overrides scenario stochastic Math_random.
Proof.
  unfold runAdvancedSimulation.
  destruct (truthy businessId && absent _); [discriminate|].
  destruct (truthy strategyId && absent _); [discriminate|].
  intros H. injection H as <-. reflexivity.
Qed.

(** C7: with [stochastic = false] the result does not depend on the random
    source, which is the engine's only input besides its arguments and the
    two fetched records: two calls with the same resolved inputs return the
    same document, field for field. *)
Theorem C7_non_stochastic_run_is_deterministic
        (Math_pow : float -> float -> float)
        (Business_findByPk : JsVal -> option Business)
        (Strategy_findByPk : JsVal -> option Strategy)
        (businessId strategyId : JsVal) (periods : nat) (overrides : Overrides)
        (scenario : string) (Math_random1 Math_random2 : nat -> float) :
  runAdvancedSimulation Math_pow Business_findByPk Strategy_findByPk
                        businessId strategyId periods overrides scenario
                        false Math_random1
  = runAdvancedSimulation Math_pow Business_findByPk Strategy_findByPk
                          businessId strategyId periods overrides scenario
                          false Math_random2.
Proof.
  unfold runAdvancedSimulation, simulate.
  rewrite (loop_no_draws _ _ _ _ _ _ _ _ false Math_random1 Math_random2 periods eq_refl).
  reflexivity.
Qed.

(** C9: a run of [n] periods returns [n] records, numbered 1 to [n] in order,
    and [n + 1] cash flows, the first of which is [-initialInvestment]. *)
Theorem C9_results_and_cashFlows_shape
        (Math_pow : float -> float -> float)
        (Business_findByPk : JsVal -> option Business)
        (Strategy_findByPk : JsVal -> option Strategy)
        (businessId strategyId : JsVal) (periods : nat) (overrides : Overrides)
        (scenario : string) (stochastic : bool) (Math_random : nat -> float)
        (r : SimulationResult)
        (Hrun : runAdvancedSimulation Math_pow Business_findByPk Strategy_findByPk
                  businessId strategyId periods overrides scenario
                  stochastic Math_random = Ok r) :
  List.length (results r) = periods /\
  (forall p rec, nth_error (results r) p = Some rec -> pr_period rec = (p + 1)%nat) /\
  List.length (k_cashFlows (kpis r)) = (periods + 1)%nat /\
  nth_error (k_cashFlows (kpis r)) 0 = Some (- m_initialInvestment (meta r)).
Proof.
  apply runAdvancedSimulation_inv in Hrun. subst r.
  unfold simulate. cbn [results kpis meta k_cashFlows m_initialInvestment].
  match goal with
  | |- context [period_loop ?a ?b ?c ?d ?e ?f ?g ?h ?i ?j periods 1 ?st] =>
      destruct (loop_numbered a b c d e f g h i j periods st eq_refl eq_refl)
        as (Hl & Hc & Hp & Hh)
  end.
  repeat split.
  - exact Hl.
  - intros p rec Hn. rewrite (Hp p rec Hn). lia.
  - rewrite Hc. lia.
  - rewrite nth_error_0. rewrite Hh. reflexivity.
Qed.

(** C10: with no business identifier and no [overrides.revenue] (resp.
    [overrides.cost]), [meta.startingRevenue] (resp. [meta.startingCost]) is
    the working revenue (resp. cost) as the last period left it, that is the
    revenue (resp. cost) of the last record, while the loop began from 1000
    (resp. 500); the two coincide only for a run of zero periods. *)
Theorem C10_meta_starting_values_are_final_values
        (Math_pow : float -> float -> float)
        (Business_findByPk : JsVal -> option Business)
        (Strategy_findByPk : JsVal -> option Strategy)
        (strategyId : JsVal) (periods : nat) (overrides : Overrides)
        (scenario : string) (stochastic : bool) (Math_random : nat -> float)
        (r : SimulationResult)
        (Hrun : runAdvancedSimulation Math_pow Business_findByPk Strategy_findByPk
                  JNull strategyId periods overrides scenario
                  stochastic Math_random = Ok r) :
  (o_revenue overrides = JUndefined ->
     startRevenue None overrides = 1000 /\
     m_startingRevenue (meta r) = last (map pr_revenue (results r)) 1000) /\
  (o_cost overrides = JUndefined ->
     startCost None overrides = 500 /\
     m_startingCost (meta r) = last (map pr_cost (results r)) 500).
Proof.
  apply runAdvancedSimulation_inv in Hrun. subst r.
  cbn [truthy]. unfold simulate.
  cbn [results meta m_startingRevenue m_startingCost opt_field].
  match goal with
  | |- context [period_loop ?a ?b ?c ?d ?e ?f ?g ?h ?i ?j periods 1 ?st] =>
      destruct (loop_running a b c d e f g h i j periods st eq_refl eq_refl)
        as (_ & _ & Hrev & Hcost)
  end.
  cbn [st_revenue st_cost] in Hrev, Hcost.
  split; intros E.
  - assert (E0 : startRevenue None overrides = 1000)
      by (unfold startRevenue; rewrite E; reflexivity).
    split; [exact E0|].
    rewrite E. cbn [js_coalesce Number]. rewrite Hrev, E0. reflexivity.
  - assert (E0 : startCost None overrides = 500)
      by (unfold startCost; rewrite E; reflexivity).
    split; [exact E0|].
    rewrite E. cbn [js_coalesce Number]. rewrite Hcost, E0. reflexivity.
Qed.

(** ** The two engines *)

Section Neutral.

Variable Math_pow : float -> float -> float.
Variable overrides : Overrides.
Variable strategy : Strategy.
Variable oneTimeInvestments : list Investment.
Variable Math_random : nat -> float.

Hypothesis no_growthRateDelta : o_growthRateDelta overrides = JUndefined.
Hypothesis no_costRateDelta : o_costRateDelta overrides = JUndefined.

Let g : float := Number (s_growthRate strategy).
Let c : float := Number (s_costRate strategy).

Let step : nat -> LoopState -> LoopState :=
  period_step Math_pow overrides g c scenario_generic oneTimeInvestments
              0 0 false Math_random.

(** The period body with every lever of the advanced engine at rest. *)
Lemma neutral_step (t : nat) (st : LoopState) :
  exists rec,
    st_results (step t st) = st_results st ++ [rec] /\
    pr_period rec = t /\
    pr_revenue rec = st_revenue st * (1 + g) /\
    pr_cost rec = st_cost st * (1 + c) + 0 /\
    pr_profit rec = pr_revenue rec - pr_cost rec /\
    st_revenue (step t st) = pr_revenue rec /\
    st_cost (step t st) = pr_cost rec.
Proof.
  unfold step, period_step.
  rewrite no_growthRateDelta, no_costRateDelta.
  destruct (service_debts Math_pow (num_of_nat t) (st_debts st) 0) as [debts total].
  change (Number (JUndefined ??? JNum 0)) with 0.
  change (Number (growthRateBoost scenario_generic ||| JNum 0)) with 0.
  change (0 <? 0) with false.
  change (1 + 0) with 1 at 2.
  cbv iota.
  rewrite one_plus_add_zero_zero, one_plus_add_zero.
  eexists. cbn. repeat split; rewrite ?mul_one_r; reflexivity.
Qed.

(** Run side by side from matching working values, the two loops append
    matching records. *)
Lemma loops_agree (n : nat) :
  forall (t : nat) (st : LoopState) (revenue cost : float) (res : list SimpleRecord),
  st_revenue st = revenue ->
  same_value_zero (st_cost st) cost = true ->
  Forall2 same_trajectory (st_results st) res ->
  Forall2 same_trajectory
          (st_results
             (period_loop Math_pow overrides g c scenario_generic
                          oneTimeInvestments 0 0 false Math_random n t st))
          (simple_loop strategy n t revenue cost res).
Proof.
  induction n as [|n IH]; intros t st revenue cost res Hrev Hcost Hres;
    [exact Hres|].
  cbn [period_loop simple_loop]. fold g c. fold (step t st).
  destruct (neutral_step t st) as (rec & Er & Ep & Erev & Ecost & Eprofit & Esr & Esc).
  assert (Hc' : same_value_zero (pr_cost rec) (cost * (1 + c)) = true).
  { rewrite Ecost.
    apply same_value_zero_trans with (y := st_cost st * (1 + c)).
    - apply same_value_zero_add_zero.
    - apply same_value_zero_mul. exact Hcost. }
  apply IH.
  - rewrite Esr, Erev, Hrev. reflexivity.
  - rewrite Esc. exact Hc'.
  - rewrite Er. apply Forall2_app; [exact Hres|].
    constructor; [|constructor].
    unfold same_trajectory. cbn [sr_period sr_revenue sr_cost sr_profit].
    repeat split.
    + exact Ep.
    + rewrite Erev, Hrev. reflexivity.
    + exact Hc'.
    + rewrite Eprofit, Erev, Hrev. apply same_value_zero_sub. exact Hc'.
Qed.

End Neutral.

(** C5, as stated, fails on the sign of a zero.  A business with cost 0
    under a strategy with cost rate -2: the simple engine leaves the cost at
    [0 * -1 = -0], the advanced engine adds its marketing spend of 0 and
    records [-0 + 0 = +0]. *)
Lemma C5_zero_cost_differs_in_sign :
  exists simple advanced,
    runSimulation (always_business zero_cost_business)
                  (always_strategy shrinking_strategy) (JNum 1) (JNum 1) 1
    = Ok simple /\
    runAdvancedSimulation pow_int (always_business zero_cost_business)
                          (always_strategy shrinking_strategy) (JNum 1) (JNum 1)
                          1 no_overrides "generic" false half_draws
    = Ok advanced /\
    map sr_cost simple = [neg_zero] /\
    map pr_cost (results advanced) = [zero] /\
    Leibniz.eqb neg_zero zero = false /\
    (1 / neg_zero =? 1 / zero) = false.
Proof.
  eexists. eexists. split; [reflexivity|]. split; [reflexivity|].
  repeat split; vm_compute; reflexivity.
Qed.

(** C5, amended: with both records resolved, scenario "generic", no
    randomness and no rate-delta, marketing or price-delta lever, the
    advanced engine returns, period for period, exactly the revenue of the
    simple engine, and a cost and a profit that are the same numbers up to
    the sign of a zero (equal under [===], NaN matching NaN).  Debts and
    one-time investments do not enter revenue, cost or profit. *)
Theorem C5_engines_agree_up_to_zero_sign
        (Math_pow : float -> float -> float)
        (Business_findByPk : JsVal -> option Business)
        (Strategy_findByPk : JsVal -> option Strategy)
        (businessId strategyId : JsVal) (periods : nat) (overrides : Overrides)
        (business : Business) (strategy : Strategy) (Math_random : nat -> float)
        (Hbid : truthy businessId = true) (Hsid : truthy strategyId = true)
        (Hb : Business_findByPk businessId = Some business)
        (Hs : Strategy_findByPk strategyId = Some strategy)
        (no_growthRateDelta : o_growthRateDelta overrides = JUndefined)
        (no_costRateDelta : o_costRateDelta overrides = JUndefined)
        (no_marketing : o_marketingPerPeriod overrides = JUndefined)
        (no_priceDelta : o_priceDeltaPercent overrides = JUndefined) :
  exists simple advanced,
    runSimulation Business_findByPk Strategy_findByPk businessId strategyId periods
    = Ok simple /\
    runAdvancedSimulation Math_pow Business_findByPk Strategy_findByPk
                          businessId strategyId periods overrides "generic"
                          false Math_random
    = Ok advanced /\
    Forall2 same_trajectory (results advanced) simple.
Proof.
  unfold runSimulation, runAdvancedSimulation.
  rewrite Hbid, Hsid, Hb, Hs. cbn [absent andb].
  eexists. eexists. split; [reflexivity|]. split; [reflexivity|].
  unfold simulate. cbn [results].
  rewrite no_marketing, no_priceDelta.
  change (Number (JUndefined ||| JNum 0)) with 0.
  change (select_sDefaults "generic") with scenario_generic.
  cbn [growthRateBase_of costRateBase_of startRevenue startCost].
  apply loops_agree.
  - exact no_growthRateDelta.
  - exact no_costRateDelta.
  - reflexivity.
  - apply same_value_zero_refl.
  - constructor.
Qed.

(** The amended C5 on the specification's example: revenue 1000, cost 500,
    growth 0.1, cost rate 0.05, two periods. *)
Lemma C5_engines_agree_up_to_zero_sign_witness :
  exists simple advanced,
    runSimulation
      (always_business (mkBusiness (JNum 1000) (JNum 500) JUndefined JUndefined None))
      (always_strategy sample_strategy) (JNum 1) (JNum 1) 2
    = Ok simple /\
    runAdvancedSimulation pow_int
      (always_business (mkBusiness (JNum 1000) (JNum 500) JUndefined JUndefined None))
      (always_strategy sample_strategy) (JNum 1) (JNum 1) 2 no_overrides
      "generic" false half_draws
    = Ok advanced /\
    Forall2 same_trajectory (results advanced) simple.
Proof.
  apply (C5_engines_agree_up_to_zero_sign pow_int
           (always_business (mkBusiness (JNum 1000) (JNum 500) JUndefined JUndefined None))
           (always_strategy sample_strategy) (JNum 1) (JNum 1) 2 no_overrides
           (mkBusiness (JNum 1000) (JNum 500) JUndefined JUndefined None)
           sample_strategy half_draws);
    reflexivity.
Defined.

(** The simple engine on the specification's example. *)
Example runSimulation_example :
  runSimulation
    (always_business (mkBusiness (JNum 1000) (JNum 500) JUndefined JUndefined None))
    (always_strategy sample_strategy) (JNum 1) (JNum 1) 2
  = Ok [mkSimpleRecord 1 1100 525 575; mkSimpleRecord 2 1210 551.25 658.75].
Proof. vm_compute. reflexivity. Qed.

(** ** A run with every default *)

Lemma default_run_ok :
  runAdvancedSimulation pow_int no_business no_strategy JNull JNull 2
                        no_overrides "generic" false half_draws
  = Ok default_run.
Proof. reflexivity. Qed.

Lemma C9_results_and_cashFlows_shape_witness :
  List.length (results default_run) = 2%nat /\
  (forall p rec, nth_error (results default_run) p = Some rec ->
                 pr_period rec = (p + 1)%nat) /\
  List.length (k_cashFlows (kpis default_run)) = (2 + 1)%nat /\
  nth_error (k_cashFlows (kpis default_run)) 0
  = Some (- m_initialInvestment (meta default_run)).
Proof.
  exact (C9_results_and_cashFlows_shape pow_int no_business no_strategy
           JNull JNull 2 no_overrides "generic" false half_draws default_run
           default_run_ok).
Defined.

Lemma C10_meta_starting_values_are_final_values_witness :
  m_startingRevenue (meta default_run)
  = last (map pr_revenue (results default_run)) 1000 /\
  m_startingCost (meta default_run)
  = last (map pr_cost (results default_run)) 500.
Proof.
  destruct (C10_meta_starting_values_are_final_values pow_int no_business
              no_strategy JNull 2 no_overrides "generic" false half_draws
              default_run default_run_ok) as [Hrev Hcost].
  split.
  - exact (proj2 (Hrev eq_refl)).
  - exact (proj2 (Hcost eq_refl)).
Defined.

(** On that run the reported starting revenue is 1102.5 and the starting cost
    520.2, the values after the second period. *)
Example default_run_meta :
  m_startingRevenue (meta default_run) = 1102.5 /\
  m_startingCost (meta default_run) = 520.20000000000005 /\
  map pr_revenue (results default_run) = [1050; 1102.5].
Proof. repeat split; vm_compute; reflexivity. Qed.

(** With an investment of 100 in period 1, the total net profit (540) is the
    sum of the profits, not of the net cash flows (440). *)
Example totalNetProfit_ignores_financing :
  let r := simulate pow_int None None 1 one_investment "generic" false half_draws in
  k_totalNetProfit (kpis r) = 540 /\ map pr_netCashFlow (results r) = [440].
Proof. split; vm_compute; reflexivity. Qed.

(** * Further properties of the code *)

(** ** More facts about binary64 comparisons *)

Lemma ltb_leb (x y : float) : (x <? y) = true -> (x <=? y) = true.
Proof.
  rewrite ltb_spec, leb_spec. unfold SFltb, SFleb.
  destruct (SFcompare (Prim2SF x) (Prim2SF y)) as [[| |]|]; try discriminate.
  reflexivity.
Qed.

Lemma is_nan_nan : is_nan nan = true.
Proof. reflexivity. Qed.

(** [Math.max(0, x)] is at least 0, or NaN. *)
Lemma Math_max_zero_nonneg (x : float) : nonneg_or_nan (Math_max 0 x) = true.
Proof.
  unfold Math_max, nonneg_or_nan.
  change (is_nan 0) with false. change (get_sign 0) with false. cbn [orb].
  destruct (is_nan x); [reflexivity|].
  destruct (0 <? x) eqn:H; [rewrite (ltb_leb _ _ H); reflexivity|].
  destruct (x <? 0); reflexivity.
Qed.

(** ** Break-even detection *)

(** What the scan of [computeBreakEven] returns from index [i] on: the
    position of the first element that reaches the investment. *)
Lemma breakEven_scan_spec (initialInvestment : float) (l : list float) :
  forall i : nat,
  match breakEven_scan i l initialInvestment with
  | Some k =>
      exists j c, k = S (i + j) /\ nth_error l j = Some c /\
                  (initialInvestment <=? c) = true /\
                  (forall j' c', (j' < j)%nat -> nth_error l j' = Some c' ->
                                 (initialInvestment <=? c') = false)
  | None => forall c, In c l -> (initialInvestment <=? c) = false
  end.
Proof.
  induction l as [|c l IH]; intros i; cbn [breakEven_scan].
  - intros c [].
  - destruct (initialInvestment <=? c) eqn:Hc.
    + exists 0%nat, c. repeat split; [f_equal; lia | exact Hc |].
      intros j' c' Hj. lia.
    + specialize (IH (S i)).
      destruct (breakEven_scan (S i) l initialInvestment) as [k|].
      * destruct IH as (j & c0 & Ek & En & Hle & Hbefore).
        exists (S j), c0. repeat split; [lia | exact En | exact Hle |].
        intros [|j'] c' Hj Hn.
        -- cbn in Hn. injection Hn as <-. exact Hc.
        -- apply (Hbefore j' c'); [lia | exact Hn].
      * intros c' [<- | Hin]; [exact Hc | exact (IH c' Hin)].
Qed.

Lemma positive_passes_guards (x : float) :
  (0 <? x) = true -> truthy_num x = true /\ (x <=? 0) = false.
Proof.
  unfold truthy_num, is_nan. rewrite ltb_spec, leb_spec, !eqb_spec, Prim2SF_zero.
  destruct (Prim2SF x) as [s|s| |s m e]; unfold SFltb, SFleb, SFeqb, SFcompare;
    try discriminate;
    try (destruct s; intros H; try discriminate H; split; reflexivity).
  destruct s; intros H; try discriminate H.
  rewrite Z.compare_refl, Pos.compare_cont_refl. split; reflexivity.
Qed.

(** X1: for a positive investment, [computeBreakEven] returns the 1-based
    position of the first cumulative profit that reaches the investment, and
    null exactly when none does. *)
Theorem X1_computeBreakEven_first_period
        (cumulativeProfits : list float) (initialInvestment : float)
        (Hpos : (0 <? initialInvestment) = true) :
  (forall k, computeBreakEven cumulativeProfits initialInvestment = Some k ->
     (1 <= k <= List.length cumulativeProfits)%nat /\
     exists c, nth_error cumulativeProfits (k - 1) = Some c /\
               (initialInvestment <=? c) = true /\
               (forall j c', (j < k - 1)%nat ->
                             nth_error cumulativeProfits j = Some c' ->
                             (initialInvestment <=? c') = false)) /\
  (computeBreakEven cumulativeProfits initialInvestment = None <->
     forall c, In c cumulativeProfits -> (initialInvestment <=? c) = false).
Proof.
  destruct (positive_passes_guards _ Hpos) as [Ht Hle].
  unfold computeBreakEven. rewrite Ht, Hle. cbn [negb orb].
  pose proof (breakEven_scan_spec initialInvestment cumulativeProfits 0) as Hs.
  destruct (breakEven_scan 0 cumulativeProfits initialInvestment) as [k0|].
  - destruct Hs as (j & c & Ek & En & Hc & Hbefore). split.
    + intros k E. injection E as <-. subst k0. cbn [Nat.add].
      replace (S j - 1)%nat with j by lia. split.
      * assert (j < List.length cumulativeProfits)%nat
          by (apply nth_error_Some; rewrite En; discriminate).
        lia.
      * exists c. repeat split; assumption.
    + split; [discriminate|].
      intros Hall. apply nth_error_In in En. rewrite (Hall c En) in Hc. discriminate.
  - split; [discriminate|]. split; [intros _; exact Hs | reflexivity].
Qed.

Lemma X1_computeBreakEven_first_period_witness :
  computeBreakEven [100; 250; 600] 500 = None <->
  forall c, In c [100; 250; 600] -> (500 <=? c) = false.
Proof.
  exact (proj2 (X1_computeBreakEven_first_period [100; 250; 600] 500 eq_refl)).
Defined.

(** ** The simple engine *)

Lemma compound_step (x k : float) (n : nat) :
  compound (x * k) k n = compound x k (S n).
Proof.
  unfold compound. symmetry.
  exact (Nat.iter_succ_r n float (fun y => y * k) x).
Qed.

Lemma simple_loop_spec (strategy : Strategy) (n : nat) :
  forall (t : nat) (revenue cost : float) (res : list SimpleRecord),
  simple_loop strategy n t revenue cost res
  = res ++ map (fun j =>
                  let r := compound revenue (1 + Number (s_growthRate strategy)) (S j) in
                  let c := compound cost (1 + Number (s_costRate strategy)) (S j) in
                  mkSimpleRecord (t + j) r c (r - c))
               (seq 0 n).
Proof.
  induction n as [|n IH]; intros t revenue cost res.
  - cbn. rewrite app_nil_r. reflexivity.
  - cbn [simple_loop]. rewrite IH. rewrite <- app_assoc. f_equal.
    cbn [seq map app]. f_equal.
    + rewrite Nat.add_0_r. reflexivity.
    + rewrite <- seq_shift, map_map. apply map_ext. intros j.
      cbv zeta. rewrite !compound_step. f_equal. lia.
Qed.

(** X2: when both records are found, [runSimulation] returns one record per
    period, numbered from 1; the revenue (resp. cost) of period [t] is the
    business's revenue (resp. cost) multiplied [t] times by [1 + growthRate]
    (resp. [1 + costRate]), and the profit is their difference. *)
Theorem X2_runSimulation_compounds
        (Business_findByPk : JsVal -> option Business)
        (Strategy_findByPk : JsVal -> option Strategy)
        (businessId strategyId : JsVal) (periods : nat)
        (business : Business) (strategy : Strategy)
        (Hb : Business_findByPk businessId = Some business)
        (Hs : Strategy_findByPk strategyId = Some strategy) :
  exists results,
    runSimulation Business_findByPk Strategy_findByPk businessId strategyId periods
    = Ok results /\
    List.length results = periods /\
    forall p rec, nth_error results p = Some rec ->
      sr_period rec = (p + 1)%nat /\
      sr_revenue rec
      = compound (Number (b_revenue business))
                 (1 + Number (s_growthRate strategy)) (p + 1) /\
      sr_cost rec
      = compound (Number (b_cost business))
                 (1 + Number (s_costRate strategy)) (p + 1) /\
      sr_profit rec = sr_revenue rec - sr_cost rec.
Proof.
  unfold runSimulation. rewrite Hb, Hs. eexists. split; [reflexivity|].
  rewrite simple_loop_spec. cbn [app]. split.
  - rewrite length_map, length_seq. reflexivity.
  - intros p rec Hn. rewrite nth_error_map in Hn.
    destruct (nth_error (seq 0 periods) p) as [j|] eqn:Ej; [|discriminate].
    assert (Hp : (p < periods)%nat).
    { assert (H : nth_error (seq 0 periods) p <> None) by (rewrite Ej; discriminate).
      apply nth_error_Some in H. rewrite length_seq in H. exact H. }
    rewrite nth_error_seq in Ej.
    replace (p <? periods)%nat with true in Ej by (symmetry; apply Nat.ltb_lt; exact Hp).
    injection Ej as <-. cbn in Hn. injection Hn as <-.
    cbn [sr_period sr_revenue sr_cost sr_profit].
    replace (p + 1)%nat with (S p) by lia. repeat split.
Qed.

Lemma X2_runSimulation_compounds_witness :
  exists results,
    runSimulation (always_business sample_business) (always_strategy sample_strategy)
                  (JNum 1) (JNum 1) 3
    = Ok results /\
    List.length results = 3%nat /\
    forall p rec, nth_error results p = Some rec ->
      sr_period rec = (p + 1)%nat /\
      sr_revenue rec
      = compound (Number (b_revenue sample_business))
                 (1 + Number (s_growthRate sample_strategy)) (p + 1) /\
      sr_cost rec
      = compound (Number (b_cost sample_business))
                 (1 + Number (s_costRate sample_strategy)) (p + 1) /\
      sr_profit rec = sr_revenue rec - sr_cost rec.
Proof.
  exact (X2_runSimulation_compounds (always_business sample_business)
           (always_strategy sample_strategy) (JNum 1) (JNum 1) 3
           sample_business sample_strategy eq_refl eq_refl).
Defined.

(** ** Failed lookups *)

(** X3: [runSimulation] looks both identifiers up, whatever they are, and
    throws "Invalid business or strategy" exactly when a lookup finds
    nothing.  [runAdvancedSimulation] looks up only a truthy identifier: it
    throws "Business not found" exactly when a truthy business identifier
    finds nothing, "Strategy not found" exactly when that does not happen and
    a truthy strategy identifier finds nothing, and in every other case runs
    the engine on what was fetched; with two falsy identifiers ([null], 0) it
    never throws and its result does not depend on the tables. *)
Theorem X3_lookup_failures
        (Math_pow : float -> float -> float)
        (Business_findByPk : JsVal -> option Business)
        (Strategy_findByPk : JsVal -> option Strategy)
        (businessId strategyId : JsVal) (periods : nat) (overrides : Overrides)
        (scenario : string) (stochastic : bool) (Math_random : nat -> float) :
  let simple :=
    runSimulation Business_findByPk Strategy_findByPk businessId strategyId periods in
  let advanced :=
    runAdvancedSimulation Math_pow Business_findByPk Strategy_findByPk
                          businessId strategyId periods overrides scenario
                          stochastic Math_random in
  let business_missing :=
    truthy businessId && absent (Business_findByPk businessId) in
  let strategy_missing :=
    truthy strategyId && absent (Strategy_findByPk strategyId) in
  (simple = Throw "Invalid business or strategy" <->
     Business_findByPk businessId = None \/ Strategy_findByPk strategyId = None) /\
  (forall message, simple = Throw message -> message = "Invalid business or strategy"%string) /\
  (advanced = Throw "Business not found" <-> business_missing = true) /\
  (advanced = Throw "Strategy not found" <->
     business_missing = false /\ strategy_missing = true) /\
  (business_missing = false -> strategy_missing = false ->
     advanced = Ok (simulate Math_pow (fetched Business_findByPk businessId)
                             (fetched Strategy_findByPk strategyId) periods
                             overrides scenario stochastic Math_random)) /\
  (truthy businessId = false -> truthy strategyId = false ->
     advanced = Ok (simulate Math_pow None None periods overrides scenario
                             stochastic Math_random)).
Proof.
  cbv zeta. unfold runSimulation, runAdvancedSimulation, fetched.
  destruct (truthy businessId), (truthy strategyId),
    (Business_findByPk businessId), (Strategy_findByPk strategyId);
    cbn [andb absent];
    repeat split; intros;
    try reflexivity; try congruence;
    try (left; reflexivity); try (right; reflexivity);
    try match goal with
        | H : _ \/ _ |- _ => destruct H; congruence
        | H : _ /\ _ |- _ => destruct H; congruence
        end.
Qed.

(** ** Debt service, one debt at a time *)

Section DebtFacts.

Variable Math_pow : float -> float -> float.

(** Servicing a debt changes nothing of it but [remaining]. *)
Lemma service_debt_terms (t : float) (d : Debt) (total : float) :
  let d' := fst (service_debt Math_pow t d total) in
  d_principal d' = d_principal d /\ d_annualRate d' = d_annualRate d /\
  d_periodsToRepay d' = d_periodsToRepay d /\ d_startPeriod d' = d_startPeriod d.
Proof.
  unfold service_debt.
  destruct ((d_startPeriod d <=? t) && (0 <? d_remaining d));
    [destruct (d_periodsToRepay d <=? 0)|]; cbn; repeat split.
Qed.

(** A dormant debt is passed over: no change, no payment. *)
Lemma service_debt_dormant (t : float) (d : Debt) (total : float) :
  dormant d = true -> service_debt Math_pow t d total = (d, total).
Proof.
  unfold dormant, service_debt. intros H.
  destruct (0 <? d_remaining d); [|rewrite andb_false_r; reflexivity].
  rewrite orb_false_r in H. rewrite H.
  destruct (d_startPeriod d <=? t); reflexivity.
Qed.

(** A serviced balance is at least 0, or NaN. *)
Lemma service_debt_nonneg (t : float) (d : Debt) (total : float) :
  nonneg_or_nan (d_remaining d) = true ->
  nonneg_or_nan (d_remaining (fst (service_debt Math_pow t d total))) = true.
Proof.
  intros H. unfold service_debt.
  destruct ((d_startPeriod d <=? t) && (0 <? d_remaining d)); [|exact H].
  destruct (d_periodsToRepay d <=? 0); [exact H|].
  cbn [fst set_remaining d_remaining]. apply Math_max_zero_nonneg.
Qed.

(** What happens to a debt does not depend on the payments made so far. *)
Lemma service_debt_fst (t : float) (d : Debt) (total : float) :
  fst (service_debt Math_pow t d total) = fst (service_debt Math_pow t d 0).
Proof.
  unfold service_debt.
  destruct ((d_startPeriod d <=? t) && (0 <? d_remaining d)); [|reflexivity].
  destruct (d_periodsToRepay d <=? 0); reflexivity.
Qed.

(** The debts are serviced independently of one another. *)
Lemma service_debts_fst (t : float) (debts : list Debt) :
  forall total,
  fst (service_debts Math_pow t debts total)
  = map (fun d => fst (service_debt Math_pow t d 0)) debts.
Proof.
  induction debts as [|d rest IH]; intros total; [reflexivity|].
  cbn [service_debts map].
  destruct (service_debt Math_pow t d total) as [d' total'] eqn:Ed.
  specialize (IH total').
  destruct (service_debts Math_pow t rest total') as [rest' total''].
  cbn [fst] in *. rewrite IH. f_equal.
  rewrite <- (service_debt_fst t d total), Ed. reflexivity.
Qed.

Lemma service_debts_dormant (t : float) (debts : list Debt) :
  forallb dormant debts = true ->
  forall total, service_debts Math_pow t debts total = (debts, total).
Proof.
  induction debts as [|d rest IH]; intros H total; [reflexivity|].
  cbn [forallb] in H. apply andb_true_iff in H. destruct H as [Hd Hrest].
  cbn [service_debts]. rewrite (service_debt_dormant t d total Hd).
  rewrite (IH Hrest total). reflexivity.
Qed.

End DebtFacts.

(** ** One period, in full *)

Lemma consecutive_snoc {A : Type} (R : A -> A -> Prop) (l : list A) (x : A) :
  (forall p a b, nth_error l p = Some a -> nth_error l (S p) = Some b -> R a b) ->
  (forall a, nth_error l (List.length l - 1) = Some a -> R a x) ->
  forall p a b, nth_error (l ++ [x]) p = Some a ->
                nth_error (l ++ [x]) (S p) = Some b -> R a b.
Proof.
  intros Hl Hlast p a b Ha Hb.
  destruct (Nat.lt_ge_cases (S p) (List.length l)) as [Hlt | Hge].
  - rewrite nth_error_app1 in Ha by lia. rewrite nth_error_app1 in Hb by lia.
    exact (Hl p a b Ha Hb).
  - assert (Hp : (S p < List.length (l ++ [x]))%nat)
      by (apply nth_error_Some; rewrite Hb; discriminate).
    rewrite length_app in Hp. cbn [List.length] in Hp.
    assert (S p = List.length l) by lia.
    rewrite nth_error_app1 in Ha by lia.
    rewrite nth_error_app2 in Hb by lia.
    replace (S p - List.length l)%nat with 0%nat in Hb by lia.
    cbn in Hb. injection Hb as <-.
    apply Hlast. replace (List.length l - 1)%nat with p by lia. exact Ha.
Qed.

Lemma nth_error_snoc_inv {A : Type} (l : list A) (x : A) (p : nat) (a : A) :
  nth_error (l ++ [x]) p = Some a ->
  nth_error l p = Some a \/ (p = List.length l /\ a = x).
Proof.
  intros H. destruct (Nat.lt_ge_cases p (List.length l)) as [Hlt | Hge].
  - left. rewrite nth_error_app1 in H by exact Hlt. exact H.
  - right. rewrite nth_error_app2 in H by exact Hge.
    destruct (p - List.length l)%nat as [|q] eqn:Eq.
    + cbn in H. injection H as <-. split; [lia | reflexivity].
    + cbn in H. destruct q; discriminate.
Qed.

Section PeriodFacts.

Variable Math_pow : float -> float -> float.
Variable overrides : Overrides.
Variables growthRateBase costRateBase : float.
Variable sDefaults : ScenarioProfile.
Variable oneTimeInvestments : list Investment.
Variables marketingPerPeriod priceDeltaPercent : float.
Variable stochastic : bool.
Variable Math_random : nat -> float.

Let step : nat -> LoopState -> LoopState :=
  period_step Math_pow overrides growthRateBase costRateBase sDefaults
              oneTimeInvestments marketingPerPeriod priceDeltaPercent
              stochastic Math_random.

Let loop : nat -> nat -> LoopState -> LoopState :=
  period_loop Math_pow overrides growthRateBase costRateBase sDefaults
              oneTimeInvestments marketingPerPeriod priceDeltaPercent
              stochastic Math_random.

(** The record a period appends, and the working variables it leaves. *)
Lemma step_record (t : nat) (st : LoopState) :
  exists rec,
    step t st
    = mkLoopState (pr_revenue rec) (pr_cost rec) (pr_cashBalance rec)
                  (pr_cumulativeProfit rec)
                  (fst (service_debts Math_pow (num_of_nat t) (st_debts st) 0))
                  (st_results st ++ [rec])
                  (st_cashFlows st ++ [pr_netCashFlow rec]) /\
    pr_period rec = t /\
    pr_profit rec = pr_revenue rec - pr_cost rec /\
    pr_netCashFlow rec = pr_profit rec - pr_investment rec - pr_debtPayment rec /\
    pr_cashBalance rec = st_cash st + pr_netCashFlow rec /\
    pr_debtPayment rec
    = snd (service_debts Math_pow (num_of_nat t) (st_debts st) 0) /\
    pr_debts rec
    = map snapshot (fst (service_debts Math_pow (num_of_nat t) (st_debts st) 0)) /\
    (stochastic = true -> nonneg_or_nan (pr_revenue rec) = true).
Proof.
  unfold step, period_step.
  destruct (service_debts Math_pow (num_of_nat t) (st_debts st) 0) as [debts total].
  cbv zeta.
  match goal with
  | |- exists rec, mkLoopState _ _ _ _ _ (_ ++ [?r]) _ = _ /\ _ => exists r
  end.
  cbn [pr_period pr_profit pr_revenue pr_cost pr_netCashFlow pr_investment
       pr_debtPayment pr_cashBalance pr_cumulativeProfit pr_debts fst snd].
  repeat split.
  intros ->. apply Math_max_zero_nonneg.
Qed.

(** A property of every appended record is a property of all the records. *)
Lemma loop_records (P : PeriodRecord -> Prop) :
  (forall t st rec, st_results (step t st) = st_results st ++ [rec] -> P rec) ->
  forall n t st, Forall P (st_results st) -> Forall P (st_results (loop n t st)).
Proof.
  intros Hstep n t st H.
  apply (loop_invariant Math_pow overrides growthRateBase costRateBase sDefaults
           oneTimeInvestments marketingPerPeriod priceDeltaPercent stochastic
           Math_random (fun _ s => Forall P (st_results s))); [|exact H].
  intros t' s Hs. destruct (step_record t' s) as (rec & E & _).
  fold step. rewrite E. cbn [st_results]. apply Forall_app. split; [exact Hs|].
  constructor; [|constructor].
  apply (Hstep t' s). rewrite E. reflexivity.
Qed.

(** The identities every record satisfies. *)
Lemma loop_identities (n t : nat) (st : LoopState) :
  st_results st = [] ->
  Forall (fun rec =>
            pr_profit rec = pr_revenue rec - pr_cost rec /\
            pr_netCashFlow rec
            = pr_profit rec - pr_investment rec - pr_debtPayment rec /\
            (stochastic = true -> nonneg_or_nan (pr_revenue rec) = true))
         (st_results (loop n t st)).
Proof.
  intros Hres. apply loop_records; [|rewrite Hres; constructor].
  intros t' s rec E. destruct (step_record t' s) as (rec' & E' & _ & Hp & Hn & _ & _ & _ & Hs).
  rewrite E' in E. cbn [st_results] in E. apply app_inj_tail in E.
  destruct E as [_ <-]. repeat split; assumption.
Qed.

(** The cash flows are the seed followed by the net cash flows of the
    records; the cash balance is their running total from the starting
    cash. *)
Lemma loop_cash (n : nat) (st : LoopState) (seed : float) :
  st_results st = [] -> st_cashFlows st = [seed] ->
  let st' := loop n 1 st in
  st_cashFlows st' = seed :: map pr_netCashFlow (st_results st') /\
  (forall p rec, nth_error (st_results st') p = Some rec ->
     pr_cashBalance rec
     = fold_left add (map pr_netCashFlow (firstn (S p) (st_results st')))
                 (st_cash st)).
Proof.
  intros Hres Hcf.
  pose (I := fun (t : nat) (s : LoopState) =>
    st_cashFlows s = seed :: map pr_netCashFlow (st_results s) /\
    st_cash s = fold_left add (map pr_netCashFlow (st_results s)) (st_cash st) /\
    (forall p rec, nth_error (st_results s) p = Some rec ->
       pr_cashBalance rec
       = fold_left add (map pr_netCashFlow (firstn (S p) (st_results s)))
                   (st_cash st))).
  assert (HI : I (n + 1)%nat (loop n 1 st)).
  { apply loop_invariant.
    - intros t s (Hc & Hb & Hp). fold step.
      destruct (step_record t s) as (rec & E & _ & _ & _ & Hcash & _).
      unfold I. rewrite E. cbn [st_cashFlows st_results st_cash].
      rewrite !map_app. cbn [map]. repeat split.
      + rewrite Hc. reflexivity.
      + rewrite fold_left_app. cbn [fold_left]. rewrite <- Hb. exact Hcash.
      + intros p r Hn. apply nth_error_snoc_inv in Hn.
        destruct Hn as [Hn | [-> ->]].
        * assert (p < List.length (st_results s))%nat
            by (apply nth_error_Some; rewrite Hn; discriminate).
          rewrite firstn_app.
          replace (S p - List.length (st_results s))%nat with 0%nat by lia.
          cbn [firstn]. rewrite app_nil_r. exact (Hp p r Hn).
        * rewrite firstn_all2 by (rewrite length_app; cbn; lia).
          rewrite map_app. cbn [map]. rewrite fold_left_app. cbn [fold_left].
          rewrite <- Hb. exact Hcash.
    - unfold I. rewrite Hres, Hcf. cbn. repeat split. intros [|p] r; discriminate. }
  destruct HI as (Hc & _ & Hp). split; assumption.
Qed.

(** The debts of the records: all the working debts, in order and with
    their principals; a balance that is not positive stays as it is in the
    next record. *)
Lemma snapshots_after_service (t : float) (debts : list Debt) :
  Forall2 (fun a b =>
             ds_principal b = ds_principal a /\
             ((0 <? ds_remaining a) = false -> ds_remaining b = ds_remaining a))
          (map snapshot debts)
          (map snapshot (map (fun d => fst (service_debt Math_pow t d 0)) debts)).
Proof.
  induction debts as [|d rest IH]; cbn [map]; constructor; [|exact IH].
  cbn [snapshot ds_principal ds_remaining]. split.
  - apply (service_debt_terms Math_pow t d 0).
  - intros H. rewrite service_debt_dormant; [reflexivity|].
    unfold dormant. rewrite H. apply orb_true_r.
Qed.

Lemma loop_debts (n : nat) (st : LoopState) :
  st_results st = [] ->
  let st' := loop n 1 st in
  Forall (fun rec => map ds_principal (pr_debts rec) = map d_principal (st_debts st))
         (st_results st') /\
  (forall p a b, nth_error (st_results st') p = Some a ->
                 nth_error (st_results st') (S p) = Some b ->
     Forall2 (fun x y =>
                ds_principal y = ds_principal x /\
                ((0 <? ds_remaining x) = false -> ds_remaining y = ds_remaining x))
             (pr_debts a) (pr_debts b)).
Proof.
  intros Hres.
  pose (I := fun (t : nat) (s : LoopState) =>
    map d_principal (st_debts s) = map d_principal (st_debts st) /\
    Forall (fun rec => map ds_principal (pr_debts rec) = map d_principal (st_debts st))
           (st_results s) /\
    (forall a, nth_error (st_results s) (List.length (st_results s) - 1) = Some a ->
               pr_debts a = map snapshot (st_debts s)) /\
    (forall p a b, nth_error (st_results s) p = Some a ->
                   nth_error (st_results s) (S p) = Some b ->
       Forall2 (fun x y =>
                  ds_principal y = ds_principal x /\
                  ((0 <? ds_remaining x) = false -> ds_remaining y = ds_remaining x))
               (pr_debts a) (pr_debts b))).
  assert (HI : I (n + 1)%nat (loop n 1 st)).
  { apply loop_invariant.
    - intros t s (Hprin & Hall & Hlast & Hcons). fold step.
      destruct (step_record t s) as (rec & E & _ & _ & _ & _ & _ & Hd & _).
      rewrite service_debts_fst in E, Hd.
      unfold I. rewrite E. cbn [st_debts st_results].
      assert (Hprin' :
        map d_principal (map (fun d => fst (service_debt Math_pow (num_of_nat t) d 0))
                             (st_debts s))
        = map d_principal (st_debts st)).
      { rewrite <- Hprin, map_map. apply map_ext. intros d.
        apply (service_debt_terms Math_pow (num_of_nat t) d 0). }
      repeat split.
      + exact Hprin'.
      + apply Forall_app. split; [exact Hall|]. constructor; [|constructor].
        rewrite Hd. unfold snapshot. rewrite map_map. cbn [ds_principal].
        exact Hprin'.
      + intros a Ha. rewrite length_app in Ha. cbn [List.length] in Ha.
        rewrite nth_error_app2 in Ha by lia.
        replace (List.length (st_results s) + 1 - 1 - List.length (st_results s))%nat
          with 0%nat in Ha by lia.
        cbn in Ha. injection Ha as <-. exact Hd.
      + apply consecutive_snoc; [exact Hcons|].
        intros a Ha. rewrite (Hlast a Ha), Hd. apply snapshots_after_service.
    - unfold I. rewrite Hres. cbn. repeat split.
      + constructor.
      + intros a Ha. discriminate.
      + intros [|p] a b; discriminate. }
  destruct HI as (_ & Hall & _ & Hcons). split; assumption.
Qed.

(** Balances that start at least 0 (or NaN) stay so. *)
Lemma loop_remaining_nonneg (n t : nat) (st : LoopState) :
  st_results st = [] ->
  Forall (fun d => nonneg_or_nan (d_remaining d) = true) (st_debts st) ->
  Forall (fun rec =>
            Forall (fun d => nonneg_or_nan (ds_remaining d) = true) (pr_debts rec))
         (st_results (loop n t st)).
Proof.
  intros Hres H0.
  pose (I := fun (_ : nat) (s : LoopState) =>
    Forall (fun d => nonneg_or_nan (d_remaining d) = true) (st_debts s) /\
    Forall (fun rec =>
              Forall (fun d => nonneg_or_nan (ds_remaining d) = true) (pr_debts rec))
           (st_results s)).
  assert (HI : I (n + t)%nat (loop n t st)).
  { apply loop_invariant.
    - intros t' s (Hd & Hr). fold step.
      destruct (step_record t' s) as (rec & E & _ & _ & _ & _ & _ & Hdebts & _).
      rewrite service_debts_fst in E, Hdebts.
      unfold I. rewrite E. cbn [st_debts st_results].
      assert (Hd' : Forall (fun d => nonneg_or_nan (d_remaining d) = true)
                      (map (fun d => fst (service_debt Math_pow (num_of_nat t') d 0))
                           (st_debts s))).
      { apply Forall_map. eapply Forall_impl; [|exact Hd].
        intros d. apply service_debt_nonneg. }
      split; [exact Hd'|].
      apply Forall_app. split; [exact Hr|]. constructor; [|constructor].
      rewrite Hdebts. apply Forall_map. exact Hd'.
    - unfold I. rewrite Hres. split; [exact H0 | constructor]. }
  exact (proj2 HI).
Qed.

(** Dormant debts are carried unchanged and cost nothing. *)
Lemma loop_dormant (n t : nat) (st : LoopState) :
  st_results st = [] -> forallb dormant (st_debts st) = true ->
  Forall (fun rec => pr_debtPayment rec = 0 /\
                     pr_debts rec = map snapshot (st_debts st))
         (st_results (loop n t st)).
Proof.
  intros Hres H0.
  pose (I := fun (_ : nat) (s : LoopState) =>
    st_debts s = st_debts st /\
    Forall (fun rec => pr_debtPayment rec = 0 /\
                       pr_debts rec = map snapshot (st_debts st))
           (st_results s)).
  assert (HI : I (n + t)%nat (loop n t st)).
  { apply loop_invariant.
    - intros t' s (Hd & Hr). fold step.
      destruct (step_record t' s) as (rec & E & _ & _ & _ & _ & Hpay & Hdebts & _).
      rewrite Hd, (service_debts_dormant Math_pow _ _ H0) in E, Hpay, Hdebts.
      cbn [fst snd] in E, Hpay, Hdebts.
      unfold I. rewrite E. cbn [st_debts st_results]. split; [reflexivity|].
      apply Forall_app. split; [exact Hr|]. constructor; [|constructor].
      split; assumption.
    - unfold I. rewrite Hres. split; [reflexivity | constructor]. }
  exact (proj2 HI).
Qed.

End PeriodFacts.

(** ** Every record of a run *)

Lemma invested_run_ok :
  runAdvancedSimulation pow_int no_business no_strategy JNull JNull 4
                        invested "startup" true quarter_draws
  = Ok invested_run.
Proof. reflexivity. Qed.

Lemma debts_start_at_principal (business : option Business) (overrides : Overrides) :
  map d_remaining (debts_of business overrides)
  = map d_principal (debts_of business overrides).
Proof. unfold debts_of. rewrite !map_map. reflexivity. Qed.

(** X4: in every record of a run, profit is revenue minus cost and the net
    cash flow is profit minus the period's investment minus its debt
    payment; [kpis.cashFlows] is [-initialInvestment] followed by the net
    cash flows of the records, in order. *)
Theorem X4_accounting_identities
        (Math_pow : float -> float -> float)
        (Business_findByPk : JsVal -> option Business)
        (Strategy_findByPk : JsVal -> option Strategy)
        (businessId strategyId : JsVal) (periods : nat) (overrides : Overrides)
        (scenario : string) (stochastic : bool) (Math_random : nat -> float)
        (r : SimulationResult)
        (Hrun : runAdvancedSimulation Math_pow Business_findByPk Strategy_findByPk
                  businessId strategyId periods overrides scenario
                  stochastic Math_random = Ok r) :
  Forall (fun rec =>
            pr_profit rec = pr_revenue rec - pr_cost rec /\
            pr_netCashFlow rec
            = pr_profit rec - pr_investment rec - pr_debtPayment rec)
         (results r) /\
  k_cashFlows (kpis r)
  = - m_initialInvestment (meta r) :: map pr_netCashFlow (results r).
Proof.
  apply runAdvancedSimulation_inv in Hrun. subst r.
  unfold simulate. cbn [results kpis meta k_cashFlows m_initialInvestment].
  match goal with
  | |- context [period_loop ?a ?b ?c ?d ?e ?f ?g ?h ?i ?j periods 1 ?st] =>
      pose proof (loop_identities a b c d e f g h i j periods 1 st eq_refl) as Hid;
      destruct (loop_cash a b c d e f g h i j periods st _ eq_refl eq_refl)
        as (Hcf & _)
  end.
  split; [|exact Hcf].
  eapply Forall_impl; [|exact Hid].
  intros rec (Hp & Hn & _). split; assumption.
Qed.

Lemma X4_accounting_identities_witness :
  Forall (fun rec =>
            pr_profit rec = pr_revenue rec - pr_cost rec /\
            pr_netCashFlow rec
            = pr_profit rec - pr_investment rec - pr_debtPayment rec)
         (results invested_run) /\
  k_cashFlows (kpis invested_run)
  = - m_initialInvestment (meta invested_run)
    :: map pr_netCashFlow (results invested_run).
Proof.
  exact (X4_accounting_identities pow_int no_business no_strategy JNull JNull 4
           invested "startup" true quarter_draws invested_run invested_run_ok).
Defined.

(** X5: the cash balance of a record is the starting cash
    ([overrides.cashBalance], else the business's, else 0) plus the net cash
    flows of the periods up to the record's own, added in order. *)
Theorem X5_cash_balance_is_running_total
        (Math_pow : float -> float -> float)
        (Business_findByPk : JsVal -> option Business)
        (Strategy_findByPk : JsVal -> option Strategy)
        (businessId strategyId : JsVal) (periods : nat) (overrides : Overrides)
        (scenario : string) (stochastic : bool) (Math_random : nat -> float)
        (r : SimulationResult)
        (Hrun : runAdvancedSimulation Math_pow Business_findByPk Strategy_findByPk
                  businessId strategyId periods overrides scenario
                  stochastic Math_random = Ok r) :
  forall p rec, nth_error (results r) p = Some rec ->
    pr_cashBalance rec
    = fold_left add (map pr_netCashFlow (firstn (S p) (results r)))
                (Number (o_cashBalance overrides
                         ??? opt_field (fetched Business_findByPk businessId)
                                       b_cashBalance
                         ??? JNum 0)).
Proof.
  apply runAdvancedSimulation_inv in Hrun. subst r.
  unfold simulate. cbn [results].
  match goal with
  | |- context [period_loop ?a ?b ?c ?d ?e ?f ?g ?h ?i ?j periods 1 ?st] =>
      destruct (loop_cash a b c d e f g h i j periods st _ eq_refl eq_refl)
        as (_ & Hcash)
  end.
  exact Hcash.
Qed.

Lemma X5_cash_balance_is_running_total_witness :
  exists rec,
    nth_error (results invested_run) 1 = Some rec /\
    pr_cashBalance rec
    = fold_left add (map pr_netCashFlow (firstn 2 (results invested_run)))
                (Number (o_cashBalance invested
                         ??? opt_field (fetched no_business JNull) b_cashBalance
                         ??? JNum 0)).
Proof.
  eexists. split; [vm_compute; reflexivity|].
  apply (X5_cash_balance_is_running_total pow_int no_business no_strategy
           JNull JNull 4 invested "startup" true quarter_draws invested_run
           invested_run_ok 1).
  vm_compute. reflexivity.
Defined.

(** X6: in stochastic mode no recorded revenue is negative: each is at least
    0, or NaN. *)
Theorem X6_stochastic_revenue_is_not_negative
        (Math_pow : float -> float -> float)
        (Business_findByPk : JsVal -> option Business)
        (Strategy_findByPk : JsVal -> option Strategy)
        (businessId strategyId : JsVal) (periods : nat) (overrides : Overrides)
        (scenario : string) (Math_random : nat -> float)
        (r : SimulationResult)
        (Hrun : runAdvancedSimulation Math_pow Business_findByPk Strategy_findByPk
                  businessId strategyId periods overrides scenario
                  true Math_random = Ok r) :
  Forall (fun rec => nonneg_or_nan (pr_revenue rec) = true) (results r).
Proof.
  apply runAdvancedSimulation_inv in Hrun. subst r.
  unfold simulate. cbn [results].
  match goal with
  | |- context [period_loop ?a ?b ?c ?d ?e ?f ?g ?h ?i ?j periods 1 ?st] =>
      pose proof (loop_identities a b c d e f g h i j periods 1 st eq_refl) as Hid
  end.
  eapply Forall_impl; [|exact Hid].
  intros rec (_ & _ & Hs). exact (Hs eq_refl).
Qed.

Lemma X6_stochastic_revenue_is_not_negative_witness :
  Forall (fun rec => nonneg_or_nan (pr_revenue rec) = true) (results invested_run).
Proof.
  exact (X6_stochastic_revenue_is_not_negative pow_int no_business no_strategy
           JNull JNull 4 invested "startup" quarter_draws invested_run
           invested_run_ok).
Defined.

(** ** The debts of a run *)

Lemma two_debts_run_ok :
  runAdvancedSimulation pow_int no_business no_strategy JNull JNull 3
                        two_debts "generic" false half_draws
  = Ok two_debts_run.
Proof. reflexivity. Qed.

Lemma no_term_run_ok :
  runAdvancedSimulation pow_int no_business no_strategy JNull JNull 3
                        (one_debt 1000 0.1 0) "generic" false half_draws
  = Ok no_term_run.
Proof. reflexivity. Qed.

(** X7: every record lists all the working debts (those of
    [overrides.debts], else the business's), in order, each with its
    principal; and a debt whose recorded balance is not positive (0, negative
    or NaN) has the same balance in the next record: a settled debt is not
    serviced again. *)
Theorem X7_debts_listed_and_settled_for_good
        (Math_pow : float -> float -> float)
        (Business_findByPk : JsVal -> option Business)
        (Strategy_findByPk : JsVal -> option Strategy)
        (businessId strategyId : JsVal) (periods : nat) (overrides : Overrides)
        (scenario : string) (stochastic : bool) (Math_random : nat -> float)
        (r : SimulationResult)
        (Hrun : runAdvancedSimulation Math_pow Business_findByPk Strategy_findByPk
                  businessId strategyId periods overrides scenario
                  stochastic Math_random = Ok r) :
  Forall (fun rec =>
            map ds_principal (pr_debts rec)
            = map d_principal
                  (debts_of (fetched Business_findByPk businessId) overrides))
         (results r) /\
  (forall p a b, nth_error (results r) p = Some a ->
                 nth_error (results r) (S p) = Some b ->
     Forall2 (fun x y =>
                ds_principal y = ds_principal x /\
                ((0 <? ds_remaining x) = false -> ds_remaining y = ds_remaining x))
             (pr_debts a) (pr_debts b)).
Proof.
  apply runAdvancedSimulation_inv in Hrun. subst r.
  unfold simulate. cbn [results].
  match goal with
  | |- context [period_loop ?a ?b ?c ?d ?e ?f ?g ?h ?i ?j periods 1 ?st] =>
      exact (loop_debts a b c d e f g h i j periods st eq_refl)
  end.
Qed.

Lemma X7_debts_listed_and_settled_for_good_witness :
  Forall (fun rec =>
            map ds_principal (pr_debts rec)
            = map d_principal (debts_of (fetched no_business JNull) two_debts))
         (results two_debts_run) /\
  (forall p a b, nth_error (results two_debts_run) p = Some a ->
                 nth_error (results two_debts_run) (S p) = Some b ->
     Forall2 (fun x y =>
                ds_principal y = ds_principal x /\
                ((0 <? ds_remaining x) = false -> ds_remaining y = ds_remaining x))
             (pr_debts a) (pr_debts b)).
Proof.
  exact (X7_debts_listed_and_settled_for_good pow_int no_business no_strategy
           JNull JNull 3 two_debts "generic" false half_draws two_debts_run
           two_debts_run_ok).
Defined.

(** The balances of that run: the first debt, due in two periods, is left
    with a rounding residue after the second and cleared in the third; the
    second has no term and is never serviced. *)
Example two_debts_run_history :
  remaining_history two_debts_run
  = [[523.80952380952408; 500]; [5.6843418860808015e-13; 500]; [0; 500]].
Proof. vm_compute. reflexivity. Qed.

(** X8: when no working debt has a negative principal, no recorded balance
    is negative: each is at least 0, or NaN. *)
Theorem X8_remaining_is_not_negative
        (Math_pow : float -> float -> float)
        (Business_findByPk : JsVal -> option Business)
        (Strategy_findByPk : JsVal -> option Strategy)
        (businessId strategyId : JsVal) (periods : nat) (overrides : Overrides)
        (scenario : string) (stochastic : bool) (Math_random : nat -> float)
        (r : SimulationResult)
        (Hrun : runAdvancedSimulation Math_pow Business_findByPk Strategy_findByPk
                  businessId strategyId periods overrides scenario
                  stochastic Math_random = Ok r)
        (Hprincipal :
           Forall (fun d => nonneg_or_nan (d_principal d) = true)
                  (debts_of (fetched Business_findByPk businessId) overrides)) :
  Forall (fun rec =>
            Forall (fun d => nonneg_or_nan (ds_remaining d) = true) (pr_debts rec))
         (results r).
Proof.
  apply runAdvancedSimulation_inv in Hrun. subst r.
  unfold simulate. cbn [results].
  match goal with
  | |- context [period_loop ?a ?b ?c ?d ?e ?f ?g ?h ?i ?j periods 1 ?st] =>
      apply (loop_remaining_nonneg a b c d e f g h i j periods 1 st eq_refl)
  end.
  cbn [st_debts]. unfold fetched in Hprincipal.
  rewrite Forall_forall in *. intros d Hd.
  pose proof (Hprincipal d Hd) as H.
  unfold debts_of in Hd. apply in_map_iff in Hd. destruct Hd as (x & <- & _).
  exact H.
Qed.

Lemma X8_remaining_is_not_negative_witness :
  Forall (fun rec =>
            Forall (fun d => nonneg_or_nan (ds_remaining d) = true) (pr_debts rec))
         (results two_debts_run).
Proof.
  apply (X8_remaining_is_not_negative pow_int no_business no_strategy
           JNull JNull 3 two_debts "generic" false half_draws two_debts_run
           two_debts_run_ok).
  repeat constructor.
Defined.

(** X9: when every working debt is dormant (its term [periodsToRepay] is not
    positive, or its principal is not), and in particular when there is no
    debt, every record has a debt payment of 0 and lists the debts with
    their balances at the principal. *)
Theorem X9_dormant_debts_cost_nothing
        (Math_pow : float -> float -> float)
        (Business_findByPk : JsVal -> option Business)
        (Strategy_findByPk : JsVal -> option Strategy)
        (businessId strategyId : JsVal) (periods : nat) (overrides : Overrides)
        (scenario : string) (stochastic : bool) (Math_random : nat -> float)
        (r : SimulationResult)
        (Hrun : runAdvancedSimulation Math_pow Business_findByPk Strategy_findByPk
                  businessId strategyId periods overrides scenario
                  stochastic Math_random = Ok r)
        (Hdormant :
           forallb dormant
                   (debts_of (fetched Business_findByPk businessId) overrides)
           = true) :
  Forall (fun rec =>
            pr_debtPayment rec = 0 /\
            map ds_remaining (pr_debts rec) = map ds_principal (pr_debts rec) /\
            map ds_principal (pr_debts rec)
            = map d_principal
                  (debts_of (fetched Business_findByPk businessId) overrides))
         (results r).
Proof.
  apply runAdvancedSimulation_inv in Hrun. subst r.
  unfold simulate. cbn [results].
  match goal with
  | |- context [period_loop ?a ?b ?c ?d ?e ?f ?g ?h ?i ?j periods 1 ?st] =>
      pose proof (loop_dormant a b c d e f g h i j periods 1 st eq_refl Hdormant)
        as Hd
  end.
  eapply Forall_impl; [|exact Hd].
  cbn [st_debts]. intros rec (Hpay & Hdebts). split; [exact Hpay|].
  rewrite Hdebts. unfold snapshot. rewrite !map_map. cbn [ds_remaining ds_principal].
  split; [|reflexivity].
  apply debts_start_at_principal.
Qed.

Lemma X9_dormant_debts_cost_nothing_witness :
  Forall (fun rec =>
            pr_debtPayment rec = 0 /\
            map ds_remaining (pr_debts rec) = map ds_principal (pr_debts rec) /\
            map ds_principal (pr_debts rec)
            = map d_principal
                  (debts_of (fetched no_business JNull) (one_debt 1000 0.1 0)))
         (results no_term_run).
Proof.
  apply (X9_dormant_debts_cost_nothing pow_int no_business no_strategy
           JNull JNull 3 (one_debt 1000 0.1 0) "generic" false half_draws
           no_term_run no_term_run_ok).
  reflexivity.
Defined.

(** ** What financing does not touch *)

Lemma step_operating
      (Math_pow : float -> float -> float) (ov1 ov2 : Overrides)
      (g c : float) (sD : ScenarioProfile) (inv1 inv2 : list Investment)
      (m pd : float) (stochastic : bool) (Math_random : nat -> float)
      (t : nat) (st1 st2 : LoopState) :
  o_growthRateDelta ov1 = o_growthRateDelta ov2 ->
  o_costRateDelta ov1 = o_costRateDelta ov2 ->
  o_marketingMultiplier ov1 = o_marketingMultiplier ov2 ->
  st_revenue st1 = st_revenue st2 -> st_cost st1 = st_cost st2 ->
  st_cumulativeProfit st1 = st_cumulativeProfit st2 ->
  map operating_record (st_results st1) = map operating_record (st_results st2) ->
  let s1 := period_step Math_pow ov1 g c sD inv1 m pd stochastic Math_random t st1 in
  let s2 := period_step Math_pow ov2 g c sD inv2 m pd stochastic Math_random t st2 in
  st_revenue s1 = st_revenue s2 /\ st_cost s1 = st_cost s2 /\
  st_cumulativeProfit s1 = st_cumulativeProfit s2 /\
  map operating_record (st_results s1) = map operating_record (st_results s2).
Proof.
  intros Hg Hc Hm Hrev Hcost Hcum Hres.
  unfold period_step, extraRevenueFromMarketing.
  rewrite Hg, Hc, Hm, Hrev, Hcost, Hcum.
  destruct (service_debts Math_pow (num_of_nat t) (st_debts st1) 0) as [d1 p1].
  destruct (service_debts Math_pow (num_of_nat t) (st_debts st2) 0) as [d2 p2].
  cbn [st_revenue st_cost st_cumulativeProfit st_results].
  rewrite !map_app, Hres. repeat split.
Qed.

Lemma loop_operating
      (Math_pow : float -> float -> float) (ov1 ov2 : Overrides)
      (g c : float) (sD : ScenarioProfile) (inv1 inv2 : list Investment)
      (m pd : float) (stochastic : bool) (Math_random : nat -> float) (n : nat) :
  o_growthRateDelta ov1 = o_growthRateDelta ov2 ->
  o_costRateDelta ov1 = o_costRateDelta ov2 ->
  o_marketingMultiplier ov1 = o_marketingMultiplier ov2 ->
  forall (t : nat) (st1 st2 : LoopState),
  st_revenue st1 = st_revenue st2 -> st_cost st1 = st_cost st2 ->
  st_cumulativeProfit st1 = st_cumulativeProfit st2 ->
  map operating_record (st_results st1) = map operating_record (st_results st2) ->
  map operating_record
      (st_results (period_loop Math_pow ov1 g c sD inv1 m pd stochastic
                               Math_random n t st1))
  = map operating_record
        (st_results (period_loop Math_pow ov2 g c sD inv2 m pd stochastic
                                 Math_random n t st2)).
Proof.
  intros Hg Hc Hm.
  induction n as [|n IH]; intros t st1 st2 Hrev Hcost Hcum Hres; [exact Hres|].
  cbn [period_loop].
  destruct (step_operating Math_pow ov1 ov2 g c sD inv1 inv2 m pd stochastic
              Math_random t st1 st2 Hg Hc Hm Hrev Hcost Hcum Hres)
    as (H1 & H2 & H3 & H4).
  apply IH; assumption.
Qed.

Lemma operating_profits (l1 l2 : list PeriodRecord) :
  map operating_record l1 = map operating_record l2 ->
  map pr_profit l1 = map pr_profit l2 /\
  map pr_cumulativeProfit l1 = map pr_cumulativeProfit l2.
Proof.
  intros H. split.
  - transitivity (map (fun o => snd (fst o)) (map operating_record l1));
      [rewrite map_map; reflexivity | rewrite H, map_map; reflexivity].
  - transitivity (map (fun o => snd o) (map operating_record l1));
      [rewrite map_map; reflexivity | rewrite H, map_map; reflexivity].
Qed.

(** X10: debts and one-time investments do not reach the operating side of
    a run.  Replacing [overrides.debts] and [overrides.oneTimeInvestments] by
    anything leaves every record's period, revenue, cost, profit and
    cumulative profit, and the KPIs [totalNetProfit], [ROI],
    [breakEvenPeriod], [riskIndex], [profitStdDev] and [profitMean] as they
    were (with the same random draws in stochastic mode). *)
Theorem X10_financing_leaves_operations_alone
        (Math_pow : float -> float -> float)
        (Business_findByPk : JsVal -> option Business)
        (Strategy_findByPk : JsVal -> option Strategy)
        (businessId strategyId : JsVal) (periods : nat) (overrides : Overrides)
        (debts : option (list DebtInput)) (investments : option (list Investment))
        (scenario : string) (stochastic : bool) (Math_random : nat -> float)
        (r : SimulationResult)
        (Hrun : runAdvancedSimulation Math_pow Business_findByPk Strategy_findByPk
                  businessId strategyId periods overrides scenario
                  stochastic Math_random = Ok r) :
  exists r',
    runAdvancedSimulation Math_pow Business_findByPk Strategy_findByPk
                          businessId strategyId periods
                          (with_financing overrides debts investments) scenario
                          stochastic Math_random = Ok r' /\
    map operating_record (results r') = map operating_record (results r) /\
    operating_kpis (kpis r') = operating_kpis (kpis r).
Proof.
  pose proof (runAdvancedSimulation_inv _ _ _ _ _ _ _ _ _ _ _ Hrun) as Er.
  unfold runAdvancedSimulation in Hrun |- *.
  destruct (truthy businessId && absent _); [discriminate|].
  destruct (truthy strategyId && absent _); [discriminate|].
  eexists. split; [reflexivity|]. subst r.
  set (business := if truthy businessId then Business_findByPk businessId else None).
  set (strategy := if truthy strategyId then Strategy_findByPk strategyId else None).
  unfold simulate.
  cbn [results kpis operating_kpis k_totalNetProfit k_ROI k_breakEvenPeriod
       k_riskIndex k_profitStdDev k_profitMean].
  change (startRevenue business (with_financing overrides debts investments))
    with (startRevenue business overrides).
  change (startCost business (with_financing overrides debts investments))
    with (startCost business overrides).
  change (initialInvestment_of business (with_financing overrides debts investments))
    with (initialInvestment_of business overrides).
  change (startCash business (with_financing overrides debts investments))
    with (startCash business overrides).
  change (growthRateBase_of strategy (with_financing overrides debts investments))
    with (growthRateBase_of strategy overrides).
  change (costRateBase_of strategy (with_financing overrides debts investments))
    with (costRateBase_of strategy overrides).
  cbn [with_financing o_oneTimeInvestments o_marketingPerPeriod o_priceDeltaPercent].
  match goal with
  | |- context [period_loop Math_pow ?ov1 ?g ?c ?sD ?inv1 ?m ?pd stochastic
                            Math_random periods 1 ?st1] =>
    match goal with
    | |- context [period_loop Math_pow overrides g c sD ?inv2 m pd stochastic
                              Math_random periods 1 ?st2] =>
        pose proof (loop_operating Math_pow ov1 overrides g c sD inv1 inv2 m pd
                      stochastic Math_random periods eq_refl eq_refl eq_refl
                      1 st1 st2 eq_refl eq_refl eq_refl eq_refl) as Hop
    end
  end.
  destruct (operating_profits _ _ Hop) as [Hprofit Hcum].
  split; [exact Hop|].
  unfold reduce. rewrite !reduce_from_sum, Hprofit, Hcum. reflexivity.
Qed.

Lemma X10_financing_leaves_operations_alone_witness :
  exists r',
    runAdvancedSimulation pow_int no_business no_strategy JNull JNull 4
                          (with_financing invested None None) "startup"
                          true quarter_draws = Ok r' /\
    map operating_record (results r') = map operating_record (results invested_run) /\
    operating_kpis (kpis r') = operating_kpis (kpis invested_run).
Proof.
  exact (X10_financing_leaves_operations_alone pow_int no_business no_strategy
           JNull JNull 4 invested None None "startup" true quarter_draws
           invested_run invested_run_ok).
Defined.

(** Financing does reach the cash side: without its debt and investment the
    same run ends with another cash balance. *)
Example financing_reaches_cash :
  map pr_cashBalance (results invested_run)
  <> map pr_cashBalance
         (results (simulate pow_int None None 4 (with_financing invested None None)
                            "startup" true quarter_draws)).
Proof. vm_compute. discriminate. Qed.

(** ** Scenario tags *)

Lemma step_scenario
      (Math_pow : float -> float -> float) (overrides : Overrides)
      (g c : float) (sD1 sD2 : ScenarioProfile) (inv : list Investment)
      (m pd : float) (stochastic : bool) (Math_random : nat -> float) :
  Number (growthRateBoost sD1 ||| JNum 0) = Number (growthRateBoost sD2 ||| JNum 0) ->
  Number (costVolatility sD1 ||| JNum 0.1) = Number (costVolatility sD2 ||| JNum 0.1) ->
  forall n t st,
  period_loop Math_pow overrides g c sD1 inv m pd stochastic Math_random n t st
  = period_loop Math_pow overrides g c sD2 inv m pd stochastic Math_random n t st.
Proof.
  intros Hb Hv. induction n as [|n IH]; intros t st; [reflexivity|].
  cbn [period_loop]. rewrite IH. f_equal.
  unfold period_step. rewrite Hb, Hv. reflexivity.
Qed.

Lemma other_scenarios_like_generic (scenario : string) :
  String.eqb scenario "startup" = false ->
  String.eqb scenario "manufacturing" = false ->
  String.eqb scenario "retail" = false ->
  Number (growthRateBoost (select_sDefaults scenario) ||| JNum 0)
  = Number (growthRateBoost scenario_generic ||| JNum 0) /\
  Number (costVolatility (select_sDefaults scenario) ||| JNum 0.1)
  = Number (costVolatility scenario_generic ||| JNum 0.1).
Proof.
  intros H1 H2 H3. unfold select_sDefaults, scenarioDefaults.
  rewrite H1, H2, H3.
  destruct (String.eqb scenario "generic"); [split; reflexivity|].
  destruct (existsb (String.eqb scenario) inherited_names); split; reflexivity.
Qed.

(** X11: every scenario tag other than "startup", "manufacturing" and
    "retail" (an unknown tag, or the name of a property every object
    inherits) gives the records and the KPIs of "generic". *)
Theorem X11_other_scenarios_run_as_generic
        (Math_pow : float -> float -> float)
        (Business_findByPk : JsVal -> option Business)
        (Strategy_findByPk : JsVal -> option Strategy)
        (businessId strategyId : JsVal) (periods : nat) (overrides : Overrides)
        (scenario : string) (stochastic : bool) (Math_random : nat -> float)
        (r : SimulationResult)
        (Hrun : runAdvancedSimulation Math_pow Business_findByPk Strategy_findByPk
                  businessId strategyId periods overrides scenario
                  stochastic Math_random = Ok r)
        (not_startup : String.eqb scenario "startup" = false)
        (not_manufacturing : String.eqb scenario "manufacturing" = false)
        (not_retail : String.eqb scenario "retail" = false) :
  exists generic,
    runAdvancedSimulation Math_pow Business_findByPk Strategy_findByPk
                          businessId strategyId periods overrides "generic"
                          stochastic Math_random = Ok generic /\
    results r = results generic /\ kpis r = kpis generic /\
    m_startingRevenue (meta r) = m_startingRevenue (meta generic) /\
    m_startingCost (meta r) = m_startingCost (meta generic).
Proof.
  pose proof (runAdvancedSimulation_inv _ _ _ _ _ _ _ _ _ _ _ Hrun) as Er.
  unfold runAdvancedSimulation in Hrun |- *.
  destruct (truthy businessId && absent _); [discriminate|].
  destruct (truthy strategyId && absent _); [discriminate|].
  eexists. split; [reflexivity|]. subst r.
  destruct (other_scenarios_like_generic scenario not_startup not_manufacturing
              not_retail) as [Hb Hv].
  unfold simulate.
  change (select_sDefaults "generic") with scenario_generic.
  rewrite (step_scenario _ _ _ _ _ scenario_generic _ _ _ _ _ Hb Hv).
  repeat split.
Qed.

Lemma X11_other_scenarios_run_as_generic_witness :
  exists generic,
    runAdvancedSimulation pow_int no_business no_strategy JNull JNull 2
                          no_overrides "generic" false half_draws = Ok generic /\
    results (simulate pow_int None None 2 no_overrides "toString" false half_draws)
    = results generic /\
    kpis (simulate pow_int None None 2 no_overrides "toString" false half_draws)
    = kpis generic /\
    m_startingRevenue
      (meta (simulate pow_int None None 2 no_overrides "toString" false half_draws))
    = m_startingRevenue (meta generic) /\
    m_startingCost
      (meta (simulate pow_int None None 2 no_overrides "toString" false half_draws))
    = m_startingCost (meta generic).
Proof.
  exact (X11_other_scenarios_run_as_generic pow_int no_business no_strategy
           JNull JNull 2 no_overrides "toString" false half_draws
           (simulate pow_int None None 2 no_overrides "toString" false half_draws)
           eq_refl eq_refl eq_refl eq_refl).
Defined.

(** The three named scenarios do differ from "generic": "startup" adds 0.05
    to the growth rate. *)
Example startup_grows_faster :
  map pr_revenue
      (results (simulate pow_int None None 1 no_overrides "startup" false half_draws))
  = [1100] /\
  map pr_revenue
      (results (simulate pow_int None None 1 no_overrides "generic" false half_draws))
  = [1050].
Proof. split; vm_compute; reflexivity. Qed.

(** ** The break-even period of a run *)

(** X12: when a run reports a break-even period [k], the initial investment
    is positive enough to pass the guard (not zero, not NaN, not [<= 0]),
    [k] is one of the simulated periods, the cumulative profit recorded for
    period [k] reaches the initial investment, and that of no earlier period
    does. *)
Theorem X12_breakEvenPeriod_is_first_period_to_recoup
        (Math_pow : float -> float -> float)
        (Business_findByPk : JsVal -> option Business)
        (Strategy_findByPk : JsVal -> option Strategy)
        (businessId strategyId : JsVal) (periods : nat) (overrides : Overrides)
        (scenario : string) (stochastic : bool) (Math_random : nat -> float)
        (r : SimulationResult) (k : nat)
        (Hrun : runAdvancedSimulation Math_pow Business_findByPk Strategy_findByPk
                  businessId strategyId periods overrides scenario
                  stochastic Math_random = Ok r)
        (Hk : k_breakEvenPeriod (kpis r) = Some k) :
  let investment := m_initialInvestment (meta r) in
  truthy_num investment = true /\ (investment <=? 0) = false /\
  (1 <= k <= periods)%nat /\
  exists rec,
    nth_error (results r) (k - 1) = Some rec /\
    pr_period rec = k /\
    (investment <=? pr_cumulativeProfit rec) = true /\
    (forall j rec', (j < k - 1)%nat -> nth_error (results r) j = Some rec' ->
                    (investment <=? pr_cumulativeProfit rec') = false).
Proof.
  apply runAdvancedSimulation_inv in Hrun. subst r.
  unfold simulate in *.
  cbn [results kpis meta k_breakEvenPeriod m_initialInvestment] in *.
  match goal with
  | |- context [period_loop ?a ?b ?c ?d ?e ?f ?g ?h ?i ?j periods 1 ?st] =>
      destruct (loop_numbered a b c d e f g h i j periods st eq_refl eq_refl)
        as (Hl & _ & Hp & _);
      set (res := st_results (period_loop a b c d e f g h i j periods 1 st)) in *
  end.
  set (investment := initialInvestment_of _ overrides) in *.
  cbv zeta. unfold computeBreakEven in Hk.
  destruct (truthy_num investment) eqn:Ht; [|discriminate Hk].
  destruct (investment <=? 0) eqn:Hle; [discriminate Hk|].
  cbn [negb orb] in Hk.
  pose proof (breakEven_scan_spec investment (map pr_cumulativeProfit res) 0) as Hs.
  rewrite Hk in Hs. destruct Hs as (j & c & Ek & En & Hc & Hbefore).
  cbn [Nat.add] in Ek. subst k. replace (S j - 1)%nat with j by lia.
  rewrite nth_error_map in En.
  destruct (nth_error res j) as [rec|] eqn:Erec; [|discriminate En].
  cbn in En. injection En as <-.
  assert (Hj : (j < List.length res)%nat)
    by (apply nth_error_Some; rewrite Erec; discriminate).
  repeat split; try lia.
  exists rec. repeat split.
  - exact (Hp j rec Erec).
  - exact Hc.
  - intros j' rec' Hj' En'. apply (Hbefore j' (pr_cumulativeProfit rec') Hj').
    rewrite nth_error_map, En'. reflexivity.
Qed.

Example invested_run_breaks_even :
  k_breakEvenPeriod (kpis invested_run) = Some 2%nat.
Proof. vm_compute. reflexivity. Qed.

Lemma X12_breakEvenPeriod_is_first_period_to_recoup_witness :
  let investment := m_initialInvestment (meta invested_run) in
  truthy_num investment = true /\ (investment <=? 0) = false /\
  (1 <= 2 <= 4)%nat /\
  exists rec,
    nth_error (results invested_run) (2 - 1) = Some rec /\
    pr_period rec = 2%nat /\
    (investment <=? pr_cumulativeProfit rec) = true /\
    (forall j rec', (j < 2 - 1)%nat -> nth_error (results invested_run) j = Some rec' ->
                    (investment <=? pr_cumulativeProfit rec') = false).
Proof.
  exact (X12_breakEvenPeriod_is_first_period_to_recoup pow_int no_business
           no_strategy JNull JNull 4 invested "startup" true quarter_draws
           invested_run 2 invested_run_ok invested_run_breaks_even).
Defined.

(** ** One-time investments *)

Lemma investments_at_sum (t : float) (l : list Investment) :
  forall acc,
  investments_at t l acc
  = fold_left add
      (map (fun inv => Number (inv_amount inv ||| JNum 0))
           (filter (fun inv => strict_eq_num (inv_period inv) t) l))
      acc.
Proof.
  induction l as [|inv rest IH]; intros acc; [reflexivity|].
  cbn [investments_at filter].
  destruct (strict_eq_num (inv_period inv) t); rewrite IH; reflexivity.
Qed.

Lemma step_investment
      (Math_pow : float -> float -> float) (overrides : Overrides)
      (g c : float) (sD : ScenarioProfile) (inv : list Investment)
      (m pd : float) (stochastic : bool) (Math_random : nat -> float)
      (t : nat) (st : LoopState) (rec : PeriodRecord) :
  st_results (period_step Math_pow overrides g c sD inv m pd stochastic
                          Math_random t st)
  = st_results st ++ [rec] ->
  pr_investment rec = investments_at (num_of_nat (pr_period rec)) inv 0.
Proof.
  unfold period_step.
  destruct (service_debts Math_pow (num_of_nat t) (st_debts st) 0) as [debts total].
  cbn [st_results]. intros E. apply app_inj_tail in E. destruct E as [_ <-].
  reflexivity.
Qed.

(** X14: the investment recorded for a period is the sum, in list order from
    0, of the amounts of the entries of [overrides.oneTimeInvestments] whose
    [period] is that period's number ([===]), a missing or zero amount
    counting 0; entries for other periods, or with no numeric period, never
    count. *)
Theorem X14_investment_of_a_period
        (Math_pow : float -> float -> float)
        (Business_findByPk : JsVal -> option Business)
        (Strategy_findByPk : JsVal -> option Strategy)
        (businessId strategyId : JsVal) (periods : nat) (overrides : Overrides)
        (scenario : string) (stochastic : bool) (Math_random : nat -> float)
        (r : SimulationResult)
        (Hrun : runAdvancedSimulation Math_pow Business_findByPk Strategy_findByPk
                  businessId strategyId periods overrides scenario
                  stochastic Math_random = Ok r) :
  let entries :=
    match o_oneTimeInvestments overrides with Some l => l | None => [] end in
  Forall (fun rec =>
            let due :=
              filter (fun inv =>
                        strict_eq_num (inv_period inv) (num_of_nat (pr_period rec)))
                     entries in
            pr_investment rec
            = sum_list (map (fun inv => Number (inv_amount inv ||| JNum 0)) due) /\
            (due = [] -> pr_investment rec = 0))
         (results r).
Proof.
  apply runAdvancedSimulation_inv in Hrun. subst r.
  cbv zeta. unfold simulate. cbn [results].
  match goal with
  | |- context [period_loop ?a ?b ?c ?d ?e ?f ?g ?h ?i ?j periods 1 ?st] =>
      apply (loop_records a b c d e f g h i j); [|constructor]
  end.
  intros t st rec E. apply step_investment in E.
  rewrite E, investments_at_sum. split; [reflexivity|].
  intros ->. reflexivity.
Qed.

Lemma X14_investment_of_a_period_witness :
  let entries :=
    match o_oneTimeInvestments invested with Some l => l | None => [] end in
  Forall (fun rec =>
            let due :=
              filter (fun inv =>
                        strict_eq_num (inv_period inv) (num_of_nat (pr_period rec)))
                     entries in
            pr_investment rec
            = sum_list (map (fun inv => Number (inv_amount inv ||| JNum 0)) due) /\
            (due = [] -> pr_investment rec = 0))
         (results invested_run).
Proof.
  exact (X14_investment_of_a_period pow_int no_business no_strategy JNull JNull 4
           invested "startup" true quarter_draws invested_run invested_run_ok).
Defined.

Example invested_run_investments :
  map pr_investment (results invested_run) = [0; 50; 0; 0].
Proof. vm_compute. reflexivity. Qed.

(** ** A debt at rate zero *)

Lemma eqb_zero_inv (x : float) :
  (x =? 0) = true -> exists s, Prim2SF x = S754_zero s.
Proof.
  rewrite eqb_spec, Prim2SF_zero.
  destruct (Prim2SF x) as [s|s| |s m e]; unfold SFeqb, SFcompare;
    try discriminate; try (destruct s; discriminate).
  intros _. exists s. reflexivity.
Qed.

Lemma Prim2SF_nan : Prim2SF nan = S754_nan.
Proof. reflexivity. Qed.

(** [(p * r) / 0] is NaN when [r] is a zero. *)
Lemma mul_zero_div_zero (p r : float) (s : bool) :
  Prim2SF r = S754_zero s -> (p * r) / 0 = nan.
Proof.
  intros Er. apply Prim2SF_inj.
  rewrite div_spec, mul_spec, Er, Prim2SF_zero, Prim2SF_nan.
  destruct (Prim2SF p) as [sp|sp| |sp mp ep]; reflexivity.
Qed.

Lemma sub_nan_r (x : float) : x - nan = nan.
Proof.
  apply Prim2SF_inj. rewrite sub_spec, Prim2SF_nan.
  destruct (Prim2SF x) as [s|s| |s m e]; reflexivity.
Qed.

Lemma sub_nan_l (x : float) : nan - x = nan.
Proof. apply Prim2SF_inj. rewrite sub_spec, Prim2SF_nan. reflexivity. Qed.

Lemma add_nan_r (x : float) : x + nan = nan.
Proof.
  apply Prim2SF_inj. rewrite add_spec, Prim2SF_nan.
  destruct (Prim2SF x) as [s|s| |s m e]; reflexivity.
Qed.

(** X15: servicing a debt whose rate is zero (of either sign), in a period
    where it is due (started, balance positive, term positive), divides 0 by
    0: given that [Math.pow(1, -periodsToRepay)] is 1, the balance becomes
    NaN and so does the running debt payment of the period, whatever the
    principal and the payments added before. *)
Theorem X15_zero_rate_service_is_nan
        (Math_pow : float -> float -> float) (t : float) (d : Debt) (total : float)
        (Hstarted : (d_startPeriod d <=? t) = true)
        (Hopen : (0 <? d_remaining d) = true)
        (Hterm : (d_periodsToRepay d <=? 0) = false)
        (Hrate : (d_annualRate d =? 0) = true)
        (Hpow : Math_pow 1 (- d_periodsToRepay d) = 1) :
  service_debt Math_pow t d total = (set_remaining d nan, nan).
Proof.
  destruct (eqb_zero_inv _ Hrate) as [s Es].
  unfold service_debt. rewrite Hstarted, Hopen, Hterm. cbn [andb].
  rewrite (one_plus_zero _ _ Es), Hpow.
  change (1 - 1) with 0.
  rewrite (mul_zero_div_zero _ _ _ Es).
  change (Math_min nan (d_remaining d + d_remaining d * d_annualRate d)) with nan.
  rewrite sub_nan_l, sub_nan_r, add_nan_r.
  reflexivity.
Qed.

Lemma X15_zero_rate_service_is_nan_witness :
  service_debt pow_int 1 (mkDebt 1000 0 4 1 1000) 0
  = (set_remaining (mkDebt 1000 0 4 1 1000) nan, nan).
Proof.
  exact (X15_zero_rate_service_is_nan pow_int 1 (mkDebt 1000 0 4 1 1000) 0
           eq_refl eq_refl eq_refl eq_refl eq_refl).
Defined.

(** ** The risk index of a run *)

Lemma binary_round_aux_sign (sx : bool) (mx ex : Z) (lx : location) :
  let r := binary_round_aux prec emax sx mx ex lx in
  r = S754_nan \/ r = S754_zero sx \/ r = S754_infinity sx \/
  exists m e, r = S754_finite sx m e.
Proof.
  unfold binary_round_aux.
  destruct (shr_fexp prec emax mx ex lx) as [mrs' e'].
  destruct (shr_fexp prec emax _ e' loc_Exact) as [mrs'' e''].
  destruct (shr_m mrs'') as [|m|m].
  - right. left. reflexivity.
  - destruct (Z.leb e'' (emax - prec)).
    + right. right. right. exists m, e''. reflexivity.
    + right. right. left. reflexivity.
  - left. reflexivity.
Qed.

(** [Math.sqrt] never returns a negative number. *)
Lemma sqrt_nonneg (x : float) : nonneg_or_nan (Math_sqrt x) = true.
Proof.
  unfold nonneg_or_nan, Math_sqrt, is_nan.
  rewrite leb_spec, eqb_spec, sqrt_spec, Prim2SF_zero.
  destruct (Prim2SF x) as [s|[|]| |[|] m e]; try reflexivity.
  unfold SF64sqrt, SFsqrt.
  destruct (SFsqrt_core_binary prec emax (Z.pos m) e) as [[mz ez] lz].
  destruct (binary_round_aux_sign false mz ez lz) as [E | [E | [E | (m' & e' & E)]]];
    rewrite E; reflexivity.
Qed.

(** X16: for every non-empty list of profits [computeRiskIndex] returns a
    record whose [riskIndex] is its [std], a number that is at least 0 or
    NaN; a run of at least one period reports that number as both
    [kpis.riskIndex] and [kpis.profitStdDev]. *)
Theorem X16_riskIndex_is_not_negative
        (Math_pow : float -> float -> float)
        (Business_findByPk : JsVal -> option Business)
        (Strategy_findByPk : JsVal -> option Strategy)
        (businessId strategyId : JsVal) (periods : nat) (overrides : Overrides)
        (scenario : string) (stochastic : bool) (Math_random : nat -> float)
        (r : SimulationResult)
        (Hrun : runAdvancedSimulation Math_pow Business_findByPk Strategy_findByPk
                  businessId strategyId periods overrides scenario
                  stochastic Math_random = Ok r)
        (Hperiods : (1 <= periods)%nat) :
  (forall p ps, exists std mean,
      computeRiskIndex Math_pow (p :: ps) = RiskRecord std mean std /\
      nonneg_or_nan std = true) /\
  exists std,
    k_riskIndex (kpis r) = JNum std /\ k_profitStdDev (kpis r) = JNum std /\
    nonneg_or_nan std = true.
Proof.
  assert (Hfun : forall p ps, exists std mean,
             computeRiskIndex Math_pow (p :: ps) = RiskRecord std mean std /\
             nonneg_or_nan std = true).
  { intros p ps. unfold computeRiskIndex. eexists. eexists.
    split; [reflexivity|]. apply sqrt_nonneg. }
  split; [exact Hfun|].
  apply runAdvancedSimulation_inv in Hrun. subst r.
  unfold simulate. cbn [kpis k_riskIndex k_profitStdDev].
  match goal with
  | |- context [period_loop ?a ?b ?c ?d ?e ?f ?g ?h ?i ?j periods 1 ?st] =>
      destruct (loop_numbered a b c d e f g h i j periods st eq_refl eq_refl)
        as (Hl & _);
      set (res := st_results (period_loop a b c d e f g h i j periods 1 st)) in *
  end.
  destruct res as [|rec rest]; [cbn in Hl; lia|].
  cbn [map]. destruct (Hfun (pr_profit rec) (map pr_profit rest))
    as (std & mean & E & Hstd).
  rewrite E. exists std. repeat split. exact Hstd.
Qed.

Lemma X16_riskIndex_is_not_negative_witness :
  exists std,
    k_riskIndex (kpis default_run) = JNum std /\
    k_profitStdDev (kpis default_run) = JNum std /\
    nonneg_or_nan std = true.
Proof.
  exact (proj2 (X16_riskIndex_is_not_negative pow_int no_business no_strategy
                   JNull JNull 2 no_overrides "generic" false half_draws
                   default_run default_run_ok (le_S 1 1 (le_n 1)))).
Defined.

(** ** A run with no initial investment *)

(** X17: when neither [overrides] nor the fetched business carries an
    [initialInvestment] (the [Business] table has no such column), the
    initial investment is 0: the run reports [ROI] and [breakEvenPeriod] as
    null, whatever the profits, and seeds the cash flows with [-0]. *)
Theorem X17_no_investment_no_roi
        (Math_pow : float -> float -> float)
        (Business_findByPk : JsVal -> option Business)
        (Strategy_findByPk : JsVal -> option Strategy)
        (businessId strategyId : JsVal) (periods : nat) (overrides : Overrides)
        (scenario : string) (stochastic : bool) (Math_random : nat -> float)
        (r : SimulationResult)
        (Hrun : runAdvancedSimulation Math_pow Business_findByPk Strategy_findByPk
                  businessId strategyId periods overrides scenario
                  stochastic Math_random = Ok r)
        (Hoverride : o_initialInvestment overrides = JUndefined)
        (Hbusiness :
           opt_field (fetched Business_findByPk businessId) b_initialInvestment
           = JUndefined) :
  m_initialInvestment (meta r) = 0 /\
  k_ROI (kpis r) = None /\ k_breakEvenPeriod (kpis r) = None /\
  hd_error (k_cashFlows (kpis r)) = Some neg_zero.
Proof.
  apply runAdvancedSimulation_inv in Hrun. subst r.
  unfold fetched in Hbusiness.
  unfold simulate.
  cbn [meta kpis m_initialInvestment k_ROI k_breakEvenPeriod k_cashFlows].
  assert (E : initialInvestment_of
                (if truthy businessId then Business_findByPk businessId else None)
                overrides = 0).
  { unfold initialInvestment_of. rewrite Hoverride, Hbusiness. reflexivity. }
  rewrite E.
  match goal with
  | |- context [period_loop ?a ?b ?c ?d ?e ?f ?g ?h ?i ?j periods 1 ?st] =>
      destruct (loop_numbered a b c d e f g h i j periods st eq_refl eq_refl)
        as (_ & _ & _ & Hh)
  end.
  repeat split. exact Hh.
Qed.

Lemma X17_no_investment_no_roi_witness :
  m_initialInvestment (meta default_run) = 0 /\
  k_ROI (kpis default_run) = None /\ k_breakEvenPeriod (kpis default_run) = None /\
  hd_error (k_cashFlows (kpis default_run)) = Some neg_zero.
Proof.
  exact (X17_no_investment_no_roi pow_int no_business no_strategy JNull JNull 2
           no_overrides "generic" false half_draws default_run default_run_ok
           eq_refl eq_refl).
Defined.

(** * The starting values, in the run *)

(** The records of a run are those of the period loop, started from the base
    starting values with the strategy parameters as rate bases. *)
Lemma run_is_loop
      (Math_pow : float -> float -> float)
      (Business_findByPk : JsVal -> option Business)
      (Strategy_findByPk : JsVal -> option Strategy)
      (businessId strategyId : JsVal) (periods : nat) (overrides : Overrides)
      (scenario : string) (stochastic : bool) (Math_random : nat -> float)
      (r : SimulationResult) :
  runAdvancedSimulation Math_pow Business_findByPk Strategy_findByPk
                        businessId strategyId periods overrides scenario
                        stochastic Math_random = Ok r ->
  let business := fetched Business_findByPk businessId in
  let strategy := fetched Strategy_findByPk strategyId in
  results r
  = st_results
      (period_loop Math_pow overrides
         (growthRateBase_of strategy overrides) (costRateBase_of strategy overrides)
         (select_sDefaults scenario)
         (match o_oneTimeInvestments overrides with Some l => l | None => [] end)
         (Number (o_marketingPerPeriod overrides ||| JNum 0))
         (Number (o_priceDeltaPercent overrides ||| JNum 0))
         stochastic Math_random periods 1
         (mkLoopState (startRevenue business overrides) (startCost business overrides)
                      (startCash business overrides) 0
                      (debts_of business overrides) []
                      [- initialInvestment_of business overrides])).
Proof.
  intros Hrun. apply runAdvancedSimulation_inv in Hrun. subst r. reflexivity.
Qed.

(** The four chains, on the values the engine starts from. *)
Lemma falls_back_revenue (business : option Business) (overrides : Overrides)
      (x : float) :
  falls_back (option_map b_revenue business) (o_revenue overrides) false 1000 x ->
  startRevenue business overrides = x.
Proof.
  destruct business as [b|]; cbn [option_map falls_back startRevenue].
  - intros ->. reflexivity.
  - intros [(n & E & [H | H] & ->) | (E & ->)]; rewrite E; try discriminate H.
    + unfold js_or. cbn [truthy]. rewrite H. reflexivity.
    + reflexivity.
Qed.

Lemma falls_back_cost (business : option Business) (overrides : Overrides)
      (x : float) :
  falls_back (option_map b_cost business) (o_cost overrides) false 500 x ->
  startCost business overrides = x.
Proof.
  destruct business as [b|]; cbn [option_map falls_back startCost].
  - intros ->. reflexivity.
  - intros [(n & E & [H | H] & ->) | (E & ->)]; rewrite E; try discriminate H.
    + unfold js_or. cbn [truthy]. rewrite H. reflexivity.
    + reflexivity.
Qed.

Lemma falls_back_growthRate (strategy : option Strategy) (overrides : Overrides)
      (x : float) :
  falls_back (option_map s_growthRate strategy) (o_growthRate overrides) true 0.05 x ->
  growthRateBase_of strategy overrides = x.
Proof.
  destruct strategy as [s|]; cbn [option_map falls_back growthRateBase_of].
  - intros ->. reflexivity.
  - intros [(n & E & _ & ->) | (E & ->)]; rewrite E; reflexivity.
Qed.

Lemma falls_back_costRate (strategy : option Strategy) (overrides : Overrides)
      (x : float) :
  falls_back (option_map s_costRate strategy) (o_costRate overrides) true 0.02 x ->
  costRateBase_of strategy overrides = x.
Proof.
  destruct strategy as [s|]; cbn [option_map falls_back costRateBase_of].
  - intros ->. reflexivity.
  - intros [(n & E & _ & ->) | (E & ->)]; rewrite E; reflexivity.
Qed.

Section FirstPeriod.

Variable Math_pow : float -> float -> float.
Variable overrides : Overrides.
Variables growthRateBase costRateBase : float.
Variable sDefaults : ScenarioProfile.
Variable oneTimeInvestments : list Investment.
Variables marketingPerPeriod priceDeltaPercent : float.
Variable stochastic : bool.
Variable Math_random : nat -> float.

Let step : nat -> LoopState -> LoopState :=
  period_step Math_pow overrides growthRateBase costRateBase sDefaults
              oneTimeInvestments marketingPerPeriod priceDeltaPercent
              stochastic Math_random.

Let loop : nat -> nat -> LoopState -> LoopState :=
  period_loop Math_pow overrides growthRateBase costRateBase sDefaults
              oneTimeInvestments marketingPerPeriod priceDeltaPercent
              stochastic Math_random.

(** The loop only appends. *)
Lemma loop_prefix (n t : nat) (st : LoopState) :
  exists l, st_results (loop n t st) = st_results st ++ l.
Proof.
  apply (loop_invariant Math_pow overrides growthRateBase costRateBase sDefaults
           oneTimeInvestments marketingPerPeriod priceDeltaPercent stochastic
           Math_random
           (fun _ s => exists l, st_results s = st_results st ++ l)).
  - intros t' s [l E].
    destruct (step_appends Math_pow overrides growthRateBase costRateBase sDefaults
                oneTimeInvestments marketingPerPeriod priceDeltaPercent stochastic
                Math_random t' s) as (rec & Er & _).
    exists (l ++ [rec]). rewrite Er, E, app_assoc. reflexivity.
  - exists []. rewrite app_nil_r. reflexivity.
Qed.

(** The first record of a run: the first period, from the starting state. *)
Lemma first_record (n : nat) (st : LoopState) (rec : PeriodRecord) :
  st_results st = [] ->
  nth_error (st_results (loop n 1 st)) 0 = Some rec ->
  let growthRate :=
    growthRateBase + Number (o_growthRateDelta overrides ??? JNum 0)
    + Number (growthRateBoost sDefaults ||| JNum 0) in
  let grown := st_revenue st * (1 + growthRate) * (1 + priceDeltaPercent) in
  let lifted :=
    if 0 <? marketingPerPeriod
    then grown + marketingPerPeriod * Number (o_marketingMultiplier overrides ??? JNum 2)
    else grown in
  pr_period rec = 1%nat /\
  pr_revenue rec
  = (if stochastic
     then Math_max 0 (lifted + (Math_random 1%nat * 2 - 1)
                               * Number (costVolatility sDefaults ||| JNum 0.1)
                               * lifted)
     else lifted) /\
  pr_cost rec
  = st_cost st * (1 + (costRateBase + Number (o_costRateDelta overrides ??? JNum 0)))
    + marketingPerPeriod /\
  pr_profit rec = pr_revenue rec - pr_cost rec /\
  pr_cashBalance rec = st_cash st + pr_netCashFlow rec.
Proof.
  intros Hres Hn. destruct n as [|n].
  - cbn [loop period_loop] in Hn. rewrite Hres in Hn. discriminate.
  - unfold loop in Hn. cbn [period_loop] in Hn. fold loop step in Hn.
    destruct (loop_prefix n 2 (step 1 st)) as [l El]. rewrite El in Hn.
    clear El. revert Hn. unfold step, period_step, extraRevenueFromMarketing.
    destruct (service_debts Math_pow (num_of_nat 1) (st_debts st) 0) as [debts total].
    cbn [st_results]. rewrite Hres. cbn [app nth_error].
    intros Hn. injection Hn as <-.
    cbn [pr_period pr_revenue pr_cost pr_profit pr_cashBalance pr_netCashFlow].
    repeat split.
Qed.

End FirstPeriod.

(** C1, amended: [overrides.revenue], [overrides.cost], [overrides.growthRate]
    and [overrides.costRate] are fallbacks for a missing record.  In every
    run of [runAdvancedSimulation], the records are those of the period loop
    started from a revenue and a cost, and run with a growth and a cost rate
    base, that are: the fetched record's value when a business (resp.
    strategy) record was fetched, whatever the override; else the override
    when it is a number (non-zero, for revenue and cost; 0 included, for the
    two rates); else, the override being absent, 1000, 500, 0.05 and 0.02.
    The record of period 1 shows them: its revenue is that starting revenue
    grown once at that rate base (plus delta and scenario boost, price delta,
    marketing lift and noise), its cost that starting cost grown once at
    that cost rate base plus the marketing spend.
    [overrides.initialInvestment] and [overrides.cashBalance], when numbers,
    do come before the record's: the first is [meta.initialInvestment] and,
    negated, the first cash flow; the second is the cash the first record's
    balance adds its net cash flow to. *)
Theorem C1_overrides_are_fallbacks
        (Math_pow : float -> float -> float)
        (Business_findByPk : JsVal -> option Business)
        (Strategy_findByPk : JsVal -> option Strategy)
        (businessId strategyId : JsVal) (periods : nat) (overrides : Overrides)
        (scenario : string) (stochastic : bool) (Math_random : nat -> float)
        (r : SimulationResult) (revenue0 cost0 growthRate0 costRate0 : float)
        (Hrun : runAdvancedSimulation Math_pow Business_findByPk Strategy_findByPk
                  businessId strategyId periods overrides scenario
                  stochastic Math_random = Ok r)
        (Hrevenue :
           falls_back (option_map b_revenue (fetched Business_findByPk businessId))
                      (o_revenue overrides) false 1000 revenue0)
        (Hcost :
           falls_back (option_map b_cost (fetched Business_findByPk businessId))
                      (o_cost overrides) false 500 cost0)
        (HgrowthRate :
           falls_back (option_map s_growthRate (fetched Strategy_findByPk strategyId))
                      (o_growthRate overrides) true 0.05 growthRate0)
        (HcostRate :
           falls_back (option_map s_costRate (fetched Strategy_findByPk strategyId))
                      (o_costRate overrides) true 0.02 costRate0) :
  let business := fetched Business_findByPk businessId in
  let sDefaults := select_sDefaults scenario in
  let entries :=
    match o_oneTimeInvestments overrides with Some l => l | None => [] end in
  let marketing := Number (o_marketingPerPeriod overrides ||| JNum 0) in
  let priceDelta := Number (o_priceDeltaPercent overrides ||| JNum 0) in
  results r
  = st_results
      (period_loop Math_pow overrides growthRate0 costRate0 sDefaults entries
         marketing priceDelta stochastic Math_random periods 1
         (mkLoopState revenue0 cost0 (startCash business overrides) 0
                      (debts_of business overrides) []
                      [- initialInvestment_of business overrides])) /\
  (forall rec, nth_error (results r) 0 = Some rec ->
     let growthRate :=
       growthRate0 + Number (o_growthRateDelta overrides ??? JNum 0)
       + Number (growthRateBoost sDefaults ||| JNum 0) in
     let grown := revenue0 * (1 + growthRate) * (1 + priceDelta) in
     let lifted :=
       if 0 <? marketing
       then grown + marketing * Number (o_marketingMultiplier overrides ??? JNum 2)
       else grown in
     pr_revenue rec
     = (if stochastic
        then Math_max 0 (lifted + (Math_random 1%nat * 2 - 1)
                                  * Number (costVolatility sDefaults ||| JNum 0.1)
                                  * lifted)
        else lifted) /\
     pr_cost rec
     = cost0 * (1 + (costRate0 + Number (o_costRateDelta overrides ??? JNum 0)))
       + marketing) /\
  (forall v, o_initialInvestment overrides = JNum v ->
     m_initialInvestment (meta r) = v /\
     hd_error (k_cashFlows (kpis r)) = Some (- v)) /\
  (forall v rec, o_cashBalance overrides = JNum v ->
     nth_error (results r) 0 = Some rec ->
     pr_cashBalance rec = v + pr_netCashFlow rec).
Proof.
  cbv zeta.
  pose proof (run_is_loop _ _ _ _ _ _ _ _ _ _ _ Hrun) as Hloop. cbv zeta in Hloop.
  rewrite (falls_back_revenue _ _ _ Hrevenue), (falls_back_cost _ _ _ Hcost),
    (falls_back_growthRate _ _ _ HgrowthRate), (falls_back_costRate _ _ _ HcostRate)
    in Hloop.
  split; [exact Hloop|]. split; [|split].
  - intros rec Hn. rewrite Hloop in Hn.
    apply first_record in Hn; [|reflexivity].
    destruct Hn as (_ & Hrev & Hc & _).
    split; [exact Hrev | exact Hc].
  - intros v Hv.
    pose proof (runAdvancedSimulation_inv _ _ _ _ _ _ _ _ _ _ _ Hrun) as Er.
    assert (Ei : initialInvestment_of (fetched Business_findByPk businessId) overrides
                 = v)
      by (unfold initialInvestment_of; rewrite Hv; reflexivity).
    unfold fetched in Ei. subst r. unfold simulate.
    cbn [meta kpis m_initialInvestment k_cashFlows]. split; [exact Ei|].
    match goal with
    | |- context [period_loop ?a ?b ?c ?d ?e ?f ?g ?h ?i ?j periods 1 ?st] =>
        destruct (loop_numbered a b c d e f g h i j periods st eq_refl eq_refl)
          as (_ & _ & _ & Hh)
    end.
    rewrite Hh. cbn [st_cashFlows hd_error]. rewrite Ei. reflexivity.
  - intros v rec Hv Hn. rewrite Hloop in Hn.
    apply first_record in Hn; [|reflexivity].
    destruct Hn as (_ & _ & _ & _ & Hcash).
    rewrite Hcash. cbn [st_cash]. unfold startCash. rewrite Hv. reflexivity.
Qed.

Lemma sample_run_ok :
  runAdvancedSimulation pow_int no_business no_strategy JNull JNull 2
                        sample_overrides "generic" false half_draws
  = Ok sample_run.
Proof. reflexivity. Qed.

(** The amended C1 at [overrides = {revenue: 3000, cost: 900, growthRate: 0,
    costRate: 0}] with no record fetched: period 1 records the overrides,
    grown at rate 0. *)
Lemma C1_overrides_are_fallbacks_witness :
  exists rec,
    nth_error (results sample_run) 0 = Some rec /\
    pr_revenue rec = 3000 /\ pr_cost rec = 900.
Proof.
  destruct (C1_overrides_are_fallbacks pow_int no_business no_strategy JNull JNull
              2 sample_overrides "generic" false half_draws sample_run
              3000 900 0 0 sample_run_ok
              (or_introl (ex_intro _ 3000
                 (conj eq_refl (conj (or_intror eq_refl) eq_refl))))
              (or_introl (ex_intro _ 900
                 (conj eq_refl (conj (or_intror eq_refl) eq_refl))))
              (or_introl (ex_intro _ 0
                 (conj eq_refl (conj (or_introl eq_refl) eq_refl))))
              (or_introl (ex_intro _ 0
                 (conj eq_refl (conj (or_introl eq_refl) eq_refl)))))
    as (_ & Hfirst & _).
  eexists. split; [vm_compute; reflexivity|].
  refine ((fun H => conj (eq_trans (proj1 H) _) (eq_trans (proj2 H) _))
            (Hfirst _ _)); vm_compute; reflexivity.
Defined.

(** With a business fetched, period 1 records the business's revenue grown
    once, not the override's. *)
Example business_revenue_in_first_record :
  map pr_revenue
      (results (simulate pow_int (Some sample_business) (Some sample_strategy) 1
                         sample_overrides "generic" false half_draws))
  = [2200].
Proof. vm_compute. reflexivity. Qed.

(** * Profit, before financing *)

Lemma invested_run_profit_and_net :
  (k_totalNetProfit (kpis invested_run)
   =? sum_list (map pr_netCashFlow (results invested_run))) = false.
Proof. vm_compute. reflexivity. Qed.

(** C8: in every run, the record of each period [t] in [1..periods] has a
    [profit] that is its revenue minus its cost, before the period's
    investment and debt payment (which only its net cash flow deducts), and a
    [cumulativeProfit] that is the running sum of those profits over the
    periods [1..t]; [kpis.totalNetProfit] is the sum of revenue minus cost
    over all the periods, not the sum of the net cash flows. *)
Theorem C8_cumulativeProfit_is_running_sum
        (Math_pow : float -> float -> float)
        (Business_findByPk : JsVal -> option Business)
        (Strategy_findByPk : JsVal -> option Strategy)
        (businessId strategyId : JsVal) (periods : nat) (overrides : Overrides)
        (scenario : string) (stochastic : bool) (Math_random : nat -> float)
        (r : SimulationResult)
        (Hrun : runAdvancedSimulation Math_pow Business_findByPk Strategy_findByPk
                  businessId strategyId periods overrides scenario
                  stochastic Math_random = Ok r) :
  (forall t, (1 <= t <= periods)%nat ->
     exists rec, nth_error (results r) (t - 1) = Some rec /\
                 pr_period rec = t /\
                 pr_profit rec = pr_revenue rec - pr_cost rec /\
                 pr_netCashFlow rec
                 = pr_profit rec - pr_investment rec - pr_debtPayment rec /\
                 pr_cumulativeProfit rec
                 = sum_list (map pr_profit (firstn t (results r))) /\
                 pr_cumulativeProfit rec
                 = sum_list (map (fun x => pr_revenue x - pr_cost x)
                                 (firstn t (results r)))) /\
  k_totalNetProfit (kpis r) = sum_list (map pr_profit (results r)) /\
  k_totalNetProfit (kpis r)
  = sum_list (map (fun x => pr_revenue x - pr_cost x) (results r)).
Proof.
  apply runAdvancedSimulation_inv in Hrun. subst r. unfold simulate.
  cbn [results kpis k_totalNetProfit].
  match goal with
  | |- context [period_loop ?a ?b ?c ?d ?e ?f ?g ?h ?i ?j periods 1 ?st] =>
      destruct (loop_numbered a b c d e f g h i j periods st eq_refl eq_refl)
        as (Hl & _ & Hp & _);
      destruct (loop_running a b c d e f g h i j periods st eq_refl eq_refl)
        as (_ & Hcum & _);
      pose proof (loop_identities a b c d e f g h i j periods 1 st eq_refl) as Hid;
      set (res := st_results (period_loop a b c d e f g h i j periods 1 st)) in *
  end.
  assert (Hsame : forall l, Forall (fun x => pr_profit x = pr_revenue x - pr_cost x) l ->
                            map pr_profit l = map (fun x => pr_revenue x - pr_cost x) l).
  { intros l Hf. apply map_ext_in. intros x Hx.
    rewrite Forall_forall in Hf. exact (Hf x Hx). }
  assert (Hprofit : Forall (fun x => pr_profit x = pr_revenue x - pr_cost x) res).
  { eapply Forall_impl; [|exact Hid]. intros x (H & _). exact H. }
  rewrite Forall_forall in Hid.
  split; [|split].
  - intros t Ht.
    destruct (nth_error res (t - 1)) as [rec|] eqn:En.
    + exists rec. destruct (Hid rec (nth_error_In _ _ En)) as (Hpr & Hnet & _).
      assert (Ec : pr_cumulativeProfit rec
                   = sum_list (map pr_profit (firstn t res))).
      { rewrite (Hcum _ _ En). replace (S (t - 1)) with t by lia. reflexivity. }
      repeat split; try assumption.
      * rewrite (Hp _ _ En). lia.
      * rewrite Ec. f_equal. apply Hsame.
        rewrite Forall_forall in *. intros x Hx. apply Hprofit.
        rewrite <- (firstn_skipn t res). apply in_or_app. left. exact Hx.
    + apply nth_error_None in En. lia.
  - unfold reduce. apply reduce_from_sum.
  - unfold reduce. rewrite reduce_from_sum, (Hsame res Hprofit). reflexivity.
Qed.

(** C8 on a run with a debt and an investment, where profit and net cash
    flow differ. *)
Lemma C8_cumulativeProfit_is_running_sum_witness :
  k_totalNetProfit (kpis invested_run)
  = sum_list (map (fun x => pr_revenue x - pr_cost x) (results invested_run)) /\
  (k_totalNetProfit (kpis invested_run)
   =? sum_list (map pr_netCashFlow (results invested_run))) = false.
Proof.
  split.
  - exact (proj2 (proj2 (C8_cumulativeProfit_is_running_sum pow_int no_business
                           no_strategy JNull JNull 4 invested "startup" true
                           quarter_draws invested_run invested_run_ok))).
  - exact invested_run_profit_and_net.
Defined.

(** * What [meta] reports as the starting values *)

Lemma zero_run_ok :
  runAdvancedSimulation pow_int no_business no_strategy JNull JNull 1
                        zero_overrides "generic" false half_draws
  = Ok zero_run.
Proof. reflexivity. Qed.

(** X13: when a business with a numeric revenue and cost was fetched,
    [meta.startingRevenue] and [meta.startingCost] are the revenue and cost
    the period loop of the run began from.  When no business was fetched and
    [overrides.revenue] and [overrides.cost] are numbers, [meta] reports
    those two numbers, while the records are those of the period loop begun
    from each number if it is truthy, and from 1000 (resp. 500) if it is 0 or
    NaN. *)
Theorem X13_meta_starting_values_and_the_loop
        (Math_pow : float -> float -> float)
        (Business_findByPk : JsVal -> option Business)
        (Strategy_findByPk : JsVal -> option Strategy)
        (businessId strategyId : JsVal) (periods : nat) (overrides : Overrides)
        (scenario : string) (stochastic : bool) (Math_random : nat -> float)
        (r : SimulationResult)
        (Hrun : runAdvancedSimulation Math_pow Business_findByPk Strategy_findByPk
                  businessId strategyId periods overrides scenario
                  stochastic Math_random = Ok r) :
  let business := fetched Business_findByPk businessId in
  let strategy := fetched Strategy_findByPk strategyId in
  let records_from (revenue0 cost0 : float) :=
    st_results
      (period_loop Math_pow overrides
         (growthRateBase_of strategy overrides) (costRateBase_of strategy overrides)
         (select_sDefaults scenario)
         (match o_oneTimeInvestments overrides with Some l => l | None => [] end)
         (Number (o_marketingPerPeriod overrides ||| JNum 0))
         (Number (o_priceDeltaPercent overrides ||| JNum 0))
         stochastic Math_random periods 1
         (mkLoopState revenue0 cost0 (startCash business overrides) 0
                      (debts_of business overrides) []
                      [- initialInvestment_of business overrides])) in
  (forall b x y, business = Some b -> b_revenue b = JNum x -> b_cost b = JNum y ->
     m_startingRevenue (meta r) = x /\ m_startingCost (meta r) = y /\
     results r = records_from x y) /\
  (forall x y, business = None ->
     o_revenue overrides = JNum x -> o_cost overrides = JNum y ->
     m_startingRevenue (meta r) = x /\ m_startingCost (meta r) = y /\
     results r = records_from (if truthy_num x then x else 1000)
                              (if truthy_num y then y else 500)).
Proof.
  cbv zeta.
  pose proof (run_is_loop _ _ _ _ _ _ _ _ _ _ _ Hrun) as Hloop. cbv zeta in Hloop.
  apply runAdvancedSimulation_inv in Hrun.
  unfold fetched in *.
  set (business := if truthy businessId then Business_findByPk businessId else None)
    in *.
  split.
  - intros b x y Eb Ex Ey. rewrite Hloop. subst r. rewrite Eb.
    unfold simulate. cbn [meta m_startingRevenue m_startingCost opt_field
                          startRevenue startCost].
    rewrite Ex, Ey. repeat split.
  - intros x y Eb Ex Ey. rewrite Hloop. subst r. rewrite Eb.
    unfold simulate. cbn [meta m_startingRevenue m_startingCost opt_field
                          startRevenue startCost].
    rewrite Ex, Ey. unfold js_or. cbn [truthy js_coalesce Number].
    destruct (truthy_num x), (truthy_num y); repeat split.
Qed.

(** [overrides = {revenue: 0, cost: 0}] with no business: [meta] reports 0
    and 0, and period 1 records 1000 and 500 grown once. *)
Lemma X13_meta_starting_values_and_the_loop_witness :
  m_startingRevenue (meta zero_run) = 0 /\ m_startingCost (meta zero_run) = 0 /\
  map pr_revenue (results zero_run) = [1050] /\
  map pr_cost (results zero_run) = [510].
Proof.
  destruct (X13_meta_starting_values_and_the_loop pow_int no_business no_strategy
              JNull JNull 1 zero_overrides "generic" false half_draws zero_run
              zero_run_ok) as (_ & Hnone).
  destruct (Hnone 0 0 eq_refl eq_refl eq_refl) as (Hr & Hc & Hres).
  split; [exact Hr|]. split; [exact Hc|].
  rewrite Hres. split; vm_compute; reflexivity.
Defined.
